(** * Lead-management front end: the view logic of the React components

    A shallow embedding of [App.jsx], [Dashboard.jsx], [AgentCard.jsx],
    [AgentSelect.jsx], [FileUpload.jsx], [AlertMessage.jsx] and
    [CreateCampaign.jsx].

    React state is a record, a state setter is a record update, an event
    handler is a computation in a small state-and-exception monad, and a
    component's render is a function from its state to a tree of the
    elements it shows.  The network is an input: the value a promise settles
    to is given to the part of a handler that runs after the [await]. *)

From Stdlib Require Import String Ascii List Bool Arith Lia DecimalString.
Import ListNotations.
Open Scope string_scope.

(** ** Strings *)

(** [incorporates msg part]: [part] occurs in [msg] as a contiguous piece. *)
Definition incorporates (msg part : string) : Prop :=
  exists pre post, msg = pre ++ part ++ post.

(** [starts_with part msg]: [msg] begins with [part]. *)
Fixpoint starts_with (part msg : string) : bool :=
  match part, msg with
  | EmptyString, _ => true
  | String a part', String b msg' => Ascii.eqb a b && starts_with part' msg'
  | String _ _, EmptyString => false
  end.

(** The decision of [incorporates]: [part] starts at some place of [msg]. *)
Fixpoint occurs_in (part msg : string) : bool :=
  starts_with part msg
  || match msg with
     | EmptyString => false
     | String _ msg' => occurs_in part msg'
     end.

(** Number-to-text of a non-negative integer as a template literal prints it
    (array lengths, HTTP status codes): plain decimal digits. *)
Definition decimal (n : nat) : string :=
  NilEmpty.string_of_uint (Nat.to_uint n).

(** ** The JavaScript values the handlers meet *)

Module JS.

(** An [Error] object: what [catch (e)] binds, read through [e.message]. *)
Record Error := { name : string; message : string }.

(** A settled promise, as [await] sees it. *)
Inductive Settled (A : Type) : Type :=
| Fulfilled (a : A)
| Rejected (e : Error).
Arguments Fulfilled {A} a.
Arguments Rejected {A} e.

(** A fetch [Response] whose body, read by [response.json()], settles to a
    [B] or rejects (a body that is not JSON).  [response.ok] is what the
    Fetch standard makes it: the status lies in 200..299. *)
Record Response (B : Type) := { status : nat; json : Settled B }.
Arguments status {B} r.
Arguments json {B} r.

Definition ok {B} (response : Response B) : bool :=
  ((200 <=? status response) && (status response <=? 299))%nat.

(** Why a [TypeError] is raised by the expressions of the handlers. *)
Inductive TypeErrorKind :=
| ReadOfUndefined (property : string)
| ReadOfNull (property : string)
| NotPrimitive.

(** What the engine running the page supplies: its numbers (IEEE doubles)
    with their truth value and their text, and the wording of its
    [TypeError] messages, which differs between engines. *)
Record Host := {
  number : Type;
  number_is_falsy : number -> bool;
  number_to_string : number -> string;
  type_error_message : TypeErrorKind -> string
}.

Section Values.
Context (host : Host).

#[local] Unset Elimination Schemes.

(** A decoded JSON body, plus [undefined] for members that are absent.
    An object is the list of its own members, first binding first. *)
Inductive value : Type :=
| JUndefined
| JNull
| JBool (b : bool)
| JNumber (n : number host)
| JString (s : string)
| JArray (elements : list value)
| JObject (members : list (string * value)).
#[local] Set Elimination Schemes.

Definition TypeError (k : TypeErrorKind) : Error :=
  {| name := "TypeError"; message := type_error_message host k |}.

(** ToBoolean: the operand of [!x], [x || y], [x ? a : b]. *)
Definition truthy (v : value) : bool :=
  match v with
  | JUndefined | JNull => false
  | JBool b => b
  | JNumber n => negb (number_is_falsy host n)
  | JString s => negb (s =? "")
  | JArray _ | JObject _ => true
  end.

(** [a || b] *)
Definition or_else (a b : value) : value := if truthy a then a else b.

Fixpoint own_member (k : string) (members : list (string * value))
  : option value :=
  match members with
  | [] => None
  | (k', v) :: rest => if k' =? k then Some v else own_member k rest
  end.

(** [v.k] for a member name [k] that no built-in prototype defines (the
    handlers read [lead_ids] and [detail]): an own member of an object,
    [undefined] on any other value, a [TypeError] on [null] and
    [undefined]. *)
Definition get_property (v : value) (k : string) : Error + value :=
  match v with
  | JUndefined => inl (TypeError (ReadOfUndefined k))
  | JNull => inl (TypeError (ReadOfNull k))
  | JObject members =>
      inr (match own_member k members with
           | Some x => x
           | None => JUndefined
           end)
  | _ => inr JUndefined
  end.

(** ToString, as a template literal applies it.  An object prints through
    [Object.prototype.toString] unless an own [toString] member (never
    callable in decoded JSON) hides it, in which case no primitive is
    found; an array joins its elements with commas, [null] and
    [undefined] elements printing as nothing. *)
Fixpoint to_string (v : value) : Error + string :=
  match v with
  | JUndefined => inr "undefined"
  | JNull => inr "null"
  | JBool true => inr "true"
  | JBool false => inr "false"
  | JNumber n => inr (number_to_string host n)
  | JString s => inr s
  | JArray elements =>
      (fix join (l : list value) : Error + string :=
         let element x :=
           match x with
           | JUndefined | JNull => inr ""
           | _ => to_string x
           end in
         match l with
         | [] => inr ""
         | [x] => element x
         | x :: rest =>
             match element x with
             | inl e => inl e
             | inr s =>
                 match join rest with
                 | inl e => inl e
                 | inr r => inr (s ++ "," ++ r)
                 end
             end
         end) elements
  | JObject members =>
      match own_member "toString" members with
      | Some _ => inl (TypeError NotPrimitive)
      | None => inr "[object Object]"
      end
  end.

(** [v.length] printed inside a template literal: the element count of an
    array and the unit count of a string in decimal, the text of an own
    [length] member of an object, and of [undefined] for the rest. *)
Definition length_text (v : value) : Error + string :=
  match v with
  | JArray elements => inr (decimal (List.length elements))
  | JString s => inr (decimal (String.length s))
  | _ => match get_property v "length" with
         | inl e => inl e
         | inr x => to_string x
         end
  end.

End Values.

Arguments JUndefined {host}.
Arguments JNull {host}.
Arguments JBool {host} b.
Arguments JNumber {host} n.
Arguments JString {host} s.
Arguments JArray {host} elements.
Arguments JObject {host} members.
Arguments truthy {host} v.
Arguments or_else {host} a b.
Arguments own_member {host} k members.
Arguments get_property {host} v k.
Arguments to_string {host} v.
Arguments length_text {host} v.

(** V8 (Chrome, Edge, Node), with the natural numbers standing for its
    numbers: enough for the replies written out below. *)
Definition v8_type_error_message (k : TypeErrorKind) : string :=
  match k with
  | ReadOfUndefined p =>
      "Cannot read properties of undefined (reading '" ++ p ++ "')"
  | ReadOfNull p =>
      "Cannot read properties of null (reading '" ++ p ++ "')"
  | NotPrimitive => "Cannot convert object to primitive value"
  end.

Definition v8 : Host :=
  {| number := nat;
     number_is_falsy := fun n => (n =? 0)%nat;
     number_to_string := decimal;
     type_error_message := v8_type_error_message |}.

End JS.

(** ** App.jsx *)

Module App.

Definition API_BASE_URL : string := "http://localhost:8000".

(** The component a render of [App] puts in the content area. *)
Inductive Content :=
| Dashboard (apiBaseUrl : string)
| CreateCampaign (apiBaseUrl : string).

(** [useState('dashboard')] *)
Definition initial_activeSection : string := "dashboard".

(** [renderContent]: a [switch] compares with [===]. *)
Definition renderContent (activeSection : string) : Content :=
  if activeSection =? "dashboard" then Dashboard API_BASE_URL
  else if activeSection =? "create-campaign" then CreateCampaign API_BASE_URL
  else Dashboard API_BASE_URL.

End App.

(** ** Event handlers: state passing with exceptions *)

(** A handler runs on the component's state and ends normally or by a thrown
    [Error]; the state written before a throw stays written. *)
Definition Handler (S A : Type) : Type := S -> (JS.Error + A) * S.

Definition ret {S A} (a : A) : Handler S A := fun s => (inr a, s).

Definition bind {S A B} (c : Handler S A) (k : A -> Handler S B)
  : Handler S B :=
  fun s =>
    match c s with
    | (inr a, s') => k a s'
    | (inl e, s') => (inl e, s')
    end.

Definition throw {S A} (e : JS.Error) : Handler S A := fun s => (inl e, s).

(** The value of an expression that may throw. *)
Definition eval {S A} (r : JS.Error + A) : Handler S A := fun s => (r, s).

(** [await p] on a promise that has settled. *)
Definition await {S A} (p : JS.Settled A) : Handler S A :=
  match p with
  | JS.Fulfilled a => ret a
  | JS.Rejected e => throw e
  end.

(** A call of a state setter. *)
Definition set {S} (update : S -> S) : Handler S unit :=
  fun s => (inr tt, update s).

(** [try { body } catch (e) { handler } finally { finalizer }] *)
Definition try_catch_finally {S}
  (body : Handler S unit) (handler : JS.Error -> Handler S unit)
  (finalizer : Handler S unit) : Handler S unit :=
  fun s =>
    let (r1, s1) := body s in
    let (r2, s2) :=
      match r1 with
      | inl e => handler e s1
      | inr _ => (r1, s1)
      end in
    let (r3, s3) := finalizer s2 in
    (match r3 with inl e => inl e | inr _ => r2 end, s3).

(** [new Error(text)] *)
Definition new_Error (text : string) : JS.Error :=
  {| JS.name := "Error"; JS.message := text |}.

Declare Scope handler_scope.
Delimit Scope handler_scope with handler.
Notation "x <- c ;; k" := (bind c (fun x => k))
  (at level 61, c at next level, right associativity) : handler_scope.
Notation "c ;; k" := (bind c (fun _ => k))
  (at level 61, right associativity) : handler_scope.

(** ** Agents *)

(** The [name] of an agent record: a string, [null], or not there at all. *)
Inductive Name :=
| NameUndefined
| NameNull
| NameString (s : string).

(** An entry of the roster the backend lists. *)
Module Agent.
Record t := { id : string; name : Name }.
End Agent.

(** [name || fallback] where [name] is an agent's name *)
Definition name_or (name : Name) (fallback : string) : string :=
  match name with
  | NameUndefined | NameNull => fallback
  | NameString s => if s =? "" then fallback else s
  end.

(** ** Error texts held in state *)

(** An [error] state is [null] ([None]) or the message of a caught error;
    as a condition it is falsy when [null] and when the message is empty. *)
Definition error_truthy (error : option string) : bool :=
  match error with
  | None => false
  | Some text => negb (text =? "")
  end.

(** ** AgentCard.jsx *)

Module AgentCard.

(** What a card shows: the heading and the text after the label "ID: ". *)
Record Card := { heading : string; id_text : string }.

(** [AgentCard({ agent })]; [None] is a missing agent and a [null] render. *)
Definition AgentCard (agent : option Agent.t) : option Card :=
  match agent with
  | None => None
  | Some agent =>
      Some {| heading := name_or (Agent.name agent) "Unnamed Agent";
              id_text := Agent.id agent |}
  end.

End AgentCard.

(** ** AlertMessage.jsx *)

Module AlertMessage.

Inductive IconKind := CircleCheck | XCircle.

Record Alert := {
  bgColor : string;
  textColor : string;
  Icon : IconKind;
  text : string
}.

Definition AlertMessage (type message : string) : Alert :=
  {| bgColor := if type =? "success" then "bg-green-100" else "bg-red-100";
     textColor :=
       if type =? "success" then "text-green-800" else "text-red-800";
     Icon := if type =? "success" then CircleCheck else XCircle;
     text := message |}.

End AlertMessage.

(** ** AgentSelect.jsx *)

Module AgentSelect.

(** An [<option>] of the selection control. *)
Record Choice := { key : string; value : string; label : string }.

Inductive View :=
| Loading (text : string)
| Failed (text : string)
| NoAgents (text : string)
| Select (value : string) (choices : list Choice).

Definition choice (agent : Agent.t) : Choice :=
  {| key := Agent.id agent;
     value := Agent.id agent;
     label := name_or (Agent.name agent) (Agent.id agent) |}.

(** The texts beside an icon keep the space that separates them from it. *)
Definition AgentSelect (agents : list Agent.t) (selectedAgent : string)
  (loading : bool) (error : option string) : View :=
  if loading then Loading " Loading agents..."
  else if error_truthy error then
    Failed (" Error: " ++ match error with Some text => text | None => "" end)
  else if (List.length agents =? 0)%nat then
    NoAgents "No agents available. Please configure agents in Retell AI."
  else Select selectedAgent (map choice agents).

(** [onAgentChange]: the handler receives [event.target.value]. *)
Definition onAgentChange {S} (handleAgentChange : string -> S -> S)
  (target_value : string) : S -> S :=
  handleAgentChange target_value.

End AgentSelect.

(** ** Dashboard.jsx *)

Module Dashboard.

Record State := {
  agents : list Agent.t;
  loading : bool;
  error : option string
}.

(** The three [useState] calls. *)
Definition initial : State :=
  {| agents := []; loading := true; error := None |}.

Definition setAgents (data : list Agent.t) (st : State) : State :=
  {| agents := data; loading := loading st; error := error st |}.

Definition setLoading (b : bool) (st : State) : State :=
  {| agents := agents st; loading := b; error := error st |}.

Definition setError (text : string) (st : State) : State :=
  {| agents := agents st; loading := loading st; error := Some text |}.

(** [fetchAgents] from the point where [fetch] has settled to [reply].  The
    [console.log] of the decoded data writes no state. *)
Definition fetchAgents (reply : JS.Settled (JS.Response (list Agent.t)))
  : Handler State unit :=
  try_catch_finally
    (response <- await reply ;;
     (if negb (JS.ok response)
      then throw (new_Error
                    ("HTTP error! status: " ++ decimal (JS.status response)))
      else ret tt) ;;
     data <- await (JS.json response) ;;
     set (setAgents data))%handler
    (fun e => set (setError (JS.message e)))
    (set (setLoading false)).

Inductive Body :=
| EmptyState (text : string)
| Grid (cards : list (string * option AgentCard.Card)).

Inductive View :=
| Loading (text : string)
| Failed (text : string)
| Page (heading : string) (body : Body).

(** The render of [Dashboard]; a grid entry is a card with its [key]. *)
Definition Dashboard (st : State) : View :=
  if loading st then Loading "Loading agents..."
  else if error_truthy (error st) then
    Failed ("Error loading agents: "
            ++ match error st with Some text => text | None => "" end)
  else
    Page "Agent Dashboard"
      (if (List.length (agents st) =? 0)%nat then
         EmptyState
           "No agents found. Please ensure agents are configured in your backend."
       else
         Grid (map (fun agent =>
                      (Agent.id agent, AgentCard.AgentCard (Some agent)))
                   (agents st))).

(** The state once the fetch issued at mount has settled. *)
Definition loaded (reply : JS.Settled (JS.Response (list Agent.t))) : State :=
  snd (fetchAgents reply initial).

End Dashboard.

(** ** FileUpload.jsx *)

(** A file the user picked. *)
Module File.
Record t := { name : string; content : string }.
End File.

Module FileUpload.

(** The values [selectedFile] takes: [null] at first and after a campaign
    was created, [undefined] when the picker reports no file, or a file. *)
Inductive Selection :=
| Null
| Undefined
| Chosen (file : File.t).

Definition truthy (selectedFile : Selection) : bool :=
  match selectedFile with
  | Chosen _ => true
  | Null | Undefined => false
  end.

(** [onFileChange]: the handler receives [event.target.files[0]]. *)
Definition onFileChange {S} (handleFileChange : Selection -> S -> S)
  (target_files : list File.t) : S -> S :=
  handleFileChange
    (match target_files with
     | [] => Undefined
     | file :: _ => Chosen file
     end).

(** The line under the picker: the chosen file's name, when there is one. *)
Definition FileUpload (selectedFile : Selection) : option string :=
  match selectedFile with
  | Chosen file => Some ("Selected: " ++ File.name file)
  | Null | Undefined => None
  end.

End FileUpload.

(** ** CreateCampaign.jsx *)

Module CreateCampaign.

Record State := {
  selectedFile : FileUpload.Selection;
  message : string;
  messageType : string;
  loading : bool;
  agents : list Agent.t;
  selectedAgent : string;
  agentLoading : bool;
  agentError : option string
}.

(** The eight [useState] calls. *)
Definition initial : State :=
  {| selectedFile := FileUpload.Null;
     message := "";
     messageType := "";
     loading := false;
     agents := [];
     selectedAgent := "";
     agentLoading := true;
     agentError := None |}.

Definition setSelectedFile (v : FileUpload.Selection) (st : State) : State :=
  {| selectedFile := v; message := message st;
     messageType := messageType st; loading := loading st;
     agents := agents st; selectedAgent := selectedAgent st;
     agentLoading := agentLoading st; agentError := agentError st |}.

Definition setMessage (v : string) (st : State) : State :=
  {| selectedFile := selectedFile st; message := v;
     messageType := messageType st; loading := loading st;
     agents := agents st; selectedAgent := selectedAgent st;
     agentLoading := agentLoading st; agentError := agentError st |}.

Definition setMessageType (v : string) (st : State) : State :=
  {| selectedFile := selectedFile st; message := message st;
     messageType := v; loading := loading st;
     agents := agents st; selectedAgent := selectedAgent st;
     agentLoading := agentLoading st; agentError := agentError st |}.

Definition setLoading (v : bool) (st : State) : State :=
  {| selectedFile := selectedFile st; message := message st;
     messageType := messageType st; loading := v;
     agents := agents st; selectedAgent := selectedAgent st;
     agentLoading := agentLoading st; agentError := agentError st |}.

Definition setAgents (v : list Agent.t) (st : State) : State :=
  {| selectedFile := selectedFile st; message := message st;
     messageType := messageType st; loading := loading st;
     agents := v; selectedAgent := selectedAgent st;
     agentLoading := agentLoading st; agentError := agentError st |}.

Definition setSelectedAgent (v : string) (st : State) : State :=
  {| selectedFile := selectedFile st; message := message st;
     messageType := messageType st; loading := loading st;
     agents := agents st; selectedAgent := v;
     agentLoading := agentLoading st; agentError := agentError st |}.

Definition setAgentLoading (v : bool) (st : State) : State :=
  {| selectedFile := selectedFile st; message := message st;
     messageType := messageType st; loading := loading st;
     agents := agents st; selectedAgent := selectedAgent st;
     agentLoading := v; agentError := agentError st |}.

Definition setAgentError (v : string) (st : State) : State :=
  {| selectedFile := selectedFile st; message := message st;
     messageType := messageType st; loading := loading st;
     agents := agents st; selectedAgent := selectedAgent st;
     agentLoading := agentLoading st; agentError := Some v |}.

(** An entry of a [FormData] body. *)
Inductive FormValue :=
| FormFile (file : File.t)
| FormText (text : string).

(** A call of [fetch]: the address, the method and the multipart fields. *)
Record Request := {
  url : string;
  method : string;
  body : list (string * FormValue)
}.

(** How the synchronous part of an async handler ends: it returned, or it
    is suspended at [await fetch(...)] with the request on its way. *)
Inductive Suspension :=
| Returned
| Awaiting (request : Request).

(** [fetchAgents] (the mount effect) from the point where [fetch] has
    settled to [reply]. *)
Definition fetchAgents (reply : JS.Settled (JS.Response (list Agent.t)))
  : Handler State unit :=
  try_catch_finally
    (response <- await reply ;;
     (if negb (JS.ok response)
      then throw (new_Error
                    ("HTTP error! status: " ++ decimal (JS.status response)))
      else ret tt) ;;
     data <- await (JS.json response) ;;
     set (setAgents data))%handler
    (fun e => set (setAgentError (JS.message e)))
    (set (setAgentLoading false)).

Section Component.
Context (host : JS.Host) (apiBaseUrl : string).

(** [handleCreateCampaign] up to its first [await]: the two guards, the
    three setter calls, the form data and the call of [fetch]. *)
Definition handleCreateCampaign (st : State) : State * Suspension :=
  match selectedFile st with
  | FileUpload.Null | FileUpload.Undefined =>
      (setMessageType "error"
         (setMessage "Please select a CSV file to upload." st),
       Returned)
  | FileUpload.Chosen file =>
      if selectedAgent st =? "" then
        (setMessageType "error"
           (setMessage "Please select an agent for the campaign." st),
         Returned)
      else
        let formData :=
          [("file", FormFile file);
           ("agent_id", FormText (selectedAgent st))] in
        (setMessageType "" (setMessage "" (setLoading true st)),
         Awaiting {| url := apiBaseUrl ++ "/api/v1/upload-leads";
                     method := "POST";
                     body := formData |})
  end.

(** [handleCreateCampaign] from the point where [fetch] has settled to
    [reply]: the rest of the [try] block, [catch] and [finally].  The
    [console.error] of the [catch] block writes no state. *)
Definition handleCreateCampaign_settled
  (reply : JS.Settled (JS.Response (JS.value host))) : Handler State unit :=
  try_catch_finally
    (response <- await reply ;;
     if JS.ok response then
       data <- await (JS.json response) ;;
       lead_ids <- eval (JS.get_property data "lead_ids") ;;
       count <- eval (JS.length_text lead_ids) ;;
       set (setMessage
              ("Campaign created! Processed " ++ count ++ " leads.")) ;;
       set (setMessageType "success") ;;
       set (setSelectedFile FileUpload.Null)
     else
       errorData <- await (JS.json response) ;;
       detail <- eval (JS.get_property errorData "detail") ;;
       shown <- eval (JS.to_string
                        (JS.or_else detail (JS.JString "Unknown error"))) ;;
       set (setMessage ("Campaign creation failed: " ++ shown)) ;;
       set (setMessageType "error"))%handler
    (fun error =>
       set (setMessage ("An error occurred: " ++ JS.message error)) ;;
       set (setMessageType "error"))%handler
    (set (setLoading false)).

(** A whole submit with nothing happening in between: the click, then the
    reply of the server when a request was sent. *)
Definition submit (st : State)
  (reply : JS.Settled (JS.Response (JS.value host))) : State :=
  match handleCreateCampaign st with
  | (st', Returned) => st'
  | (st', Awaiting _) => snd (handleCreateCampaign_settled reply st')
  end.

(** The requests a submit sends. *)
Definition requests_of (st : State) : list Request :=
  match snd (handleCreateCampaign st) with
  | Returned => []
  | Awaiting request => [request]
  end.

End Component.

(** The submit button. *)
Record Button := { disabled : bool; label : string }.

Record View := {
  agentSelect : AgentSelect.View;
  fileUpload : option string;
  button : Button;
  alert : option AlertMessage.Alert
}.

(** The render of [CreateCampaign]. *)
Definition CreateCampaign (st : State) : View :=
  {| agentSelect :=
       AgentSelect.AgentSelect (agents st) (selectedAgent st)
         (agentLoading st) (agentError st);
     fileUpload := FileUpload.FileUpload (selectedFile st);
     button :=
       {| disabled :=
            negb (FileUpload.truthy (selectedFile st))
            || (selectedAgent st =? "")
            || loading st;
          label :=
            if loading st then "Creating Campaign..." else "Create Campaign" |};
     alert :=
       if message st =? "" then None
       else Some (AlertMessage.AlertMessage (messageType st) (message st)) |}.

End CreateCampaign.

(** ** The campaign page as it runs

    The mounted component together with the requests that are on their way.
    One event is one turn of the browser's event loop: the handler runs to
    its next [await] (or to its end) and the component renders again before
    the next event is taken. *)

Module Page.

Section Run.
Context (host : JS.Host) (apiBaseUrl : string).

Record t := {
  state : CreateCampaign.State;
  (** the roster request of the mount effect has not settled yet *)
  agents_pending : bool;
  (** the upload requests that have not settled yet, oldest first *)
  uploads : list CreateCampaign.Request
}.

Inductive Event :=
| AgentsSettled (reply : JS.Settled (JS.Response (list Agent.t)))
| FileChange (target_files : list File.t)
| AgentChange (target_value : string)
| Click
| UploadSettled (reply : JS.Settled (JS.Response (JS.value host))).

(** Mounting: the initial state, and the effect has called [fetchAgents]. *)
Definition mounted : t :=
  {| state := CreateCampaign.initial;
     agents_pending := true;
     uploads := [] |}.

(** The selection control offers [target_value] as one of its options. *)
Definition offered (view : AgentSelect.View) (target_value : string) : bool :=
  match view with
  | AgentSelect.Select _ choices =>
      existsb (fun c => AgentSelect.value c =? target_value) choices
  | _ => false
  end.

(** One event; [None] when the page cannot take it: a reply when nothing
    is pending, a choice the control does not offer, and a click on the
    disabled button, which the browser does not deliver. *)
Definition step (p : t) (ev : Event) : option t :=
  match ev with
  | AgentsSettled reply =>
      if agents_pending p then
        Some {| state := snd (CreateCampaign.fetchAgents reply (state p));
                agents_pending := false;
                uploads := uploads p |}
      else None
  | FileChange target_files =>
      Some {| state :=
                FileUpload.onFileChange CreateCampaign.setSelectedFile
                  target_files (state p);
              agents_pending := agents_pending p;
              uploads := uploads p |}
  | AgentChange target_value =>
      if offered
           (CreateCampaign.agentSelect (CreateCampaign.CreateCampaign (state p)))
           target_value
      then
        Some {| state :=
                  AgentSelect.onAgentChange CreateCampaign.setSelectedAgent
                    target_value (state p);
                agents_pending := agents_pending p;
                uploads := uploads p |}
      else None
  | Click =>
      if CreateCampaign.disabled
           (CreateCampaign.button (CreateCampaign.CreateCampaign (state p)))
      then None
      else
        let (st', suspension) :=
          CreateCampaign.handleCreateCampaign apiBaseUrl (state p) in
        Some {| state := st';
                agents_pending := agents_pending p;
                uploads :=
                  match suspension with
                  | CreateCampaign.Returned => uploads p
                  | CreateCampaign.Awaiting request =>
                      (uploads p ++ [request])%list
                  end |}
  | UploadSettled reply =>
      match uploads p with
      | [] => None
      | _ :: rest =>
          Some {| state :=
                    snd (CreateCampaign.handleCreateCampaign_settled host
                           reply (state p));
                  agents_pending := agents_pending p;
                  uploads := rest |}
      end
  end.

Fixpoint run (p : t) (events : list Event) : option t :=
  match events with
  | [] => Some p
  | ev :: rest =>
      match step p ev with
      | Some p' => run p' rest
      | None => None
      end
  end.

(** The pages some sequence of events leads to from the mounted one. *)
Definition reachable (p : t) : Prop :=
  exists events, run mounted events = Some p.

(** A submission is in flight: an upload request has not settled. *)
Definition in_flight (p : t) : bool :=
  match uploads p with
  | [] => false
  | _ :: _ => true
  end.

(** The loading flag counts the uploads on their way: one while it is
    set, none while it is not. *)
Definition flag_counts_uploads (p : t) : Prop :=
  List.length (uploads p)
  = if CreateCampaign.loading (state p) then 1 else 0.

Definition is_agent_choice (ev : Event) : bool :=
  match ev with
  | AgentChange _ => true
  | _ => false
  end.

End Run.

Arguments AgentsSettled {host} reply.
Arguments FileChange {host} target_files.
Arguments AgentChange {host} target_value.
Arguments Click {host}.
Arguments UploadSettled {host} reply.
Arguments is_agent_choice {host} ev.

End Page.

(** ** Sidebar.jsx *)

Module Sidebar.

(** A button of the navigation: its caption, the section its [onClick]
    passes to [setActiveSection], and whether it carries the classes of the
    active entry. *)
Record NavButton := {
  caption : string;
  target : string;
  highlighted : bool
}.

Definition Sidebar (activeSection : string) : list NavButton :=
  [{| caption := "Dashboard";
      target := "dashboard";
      highlighted := activeSection =? "dashboard" |};
   {| caption := "Create Campaign";
      target := "create-campaign";
      highlighted := activeSection =? "create-campaign" |}].

End Sidebar.

(** ** App.jsx: the navigation state under clicks on the sidebar *)

Module Navigation.

(** A click on the [i]-th button of the sidebar; [None] when there is no
    such button. *)
Definition click (activeSection : string) (i : nat) : option string :=
  option_map Sidebar.target (nth_error (Sidebar.Sidebar activeSection) i).

Fixpoint run (activeSection : string) (clicks : list nat) : option string :=
  match clicks with
  | [] => Some activeSection
  | i :: rest =>
      match click activeSection i with
      | Some next => run next rest
      | None => None
      end
  end.

End Navigation.

(** ** What the running campaign page keeps *)

Module Consistent.

(** [request] is an upload as the form builds it: a POST to the upload
    address with the two fields, the agent id being one of [ids] and not
    empty. *)
Definition sent_by_form (apiBaseUrl : string) (ids : list string)
  (request : CreateCampaign.Request) : Prop :=
  exists file agent_id,
    request
    = {| CreateCampaign.url := apiBaseUrl ++ "/api/v1/upload-leads";
         CreateCampaign.method := "POST";
         CreateCampaign.body :=
           [("file", CreateCampaign.FormFile file);
            ("agent_id", CreateCampaign.FormText agent_id)] |}
    /\ agent_id <> ""
    /\ In agent_id ids.

(** The roster side: the loading flag follows the roster request, which
    leaves either a roster or an error; the selection is empty or the id of
    a loaded agent; the uploads on their way were built by the form. *)
Definition roster (apiBaseUrl : string) (p : Page.t) : Prop :=
  let st := Page.state p in
  let ids := map Agent.id (CreateCampaign.agents st) in
  CreateCampaign.agentLoading st = Page.agents_pending p
  /\ (Page.agents_pending p = true ->
      CreateCampaign.agents st = [] /\ CreateCampaign.agentError st = None)
  /\ (CreateCampaign.agents st <> [] -> CreateCampaign.agentError st = None)
  /\ (CreateCampaign.selectedAgent st = ""
      \/ In (CreateCampaign.selectedAgent st) ids)
  /\ Forall (sent_by_form apiBaseUrl ids) (Page.uploads p).

(** The outcome side: there is a message exactly when it has a type, the
    type is one of the two the alert knows, and no message stands while an
    upload is on its way. *)
Definition outcome (p : Page.t) : Prop :=
  let st := Page.state p in
  (CreateCampaign.message st = "" <-> CreateCampaign.messageType st = "")
  /\ (CreateCampaign.messageType st = ""
      \/ CreateCampaign.messageType st = "success"
      \/ CreateCampaign.messageType st = "error")
  /\ (CreateCampaign.loading st = true -> CreateCampaign.message st = "").

End Consistent.

(** ** Sample data: a filled form and the replies of the backend *)

Module Sample.

Definition apiBaseUrl : string := App.API_BASE_URL.

Definition leads_csv : File.t :=
  {| File.name := "leads.csv";
     File.content := "name,phone_number" |}.

(** The form with [leads.csv] picked and [agent_42] chosen. *)
Definition filled : CreateCampaign.State :=
  CreateCampaign.setSelectedAgent "agent_42"
    (CreateCampaign.setSelectedFile (FileUpload.Chosen leads_csv)
       CreateCampaign.initial).

(** [200] with the body [{"lead_ids": ["1", "2", "3"]}] *)
Definition created : JS.Settled (JS.Response (JS.value JS.v8)) :=
  JS.Fulfilled
    {| JS.status := 200;
       JS.json :=
         JS.Fulfilled
           (JS.JObject
              [("lead_ids",
                JS.JArray [JS.JString "1"; JS.JString "2"; JS.JString "3"])])
    |}.

(** [400] with the body [{"detail": "bad column"}] *)
Definition bad_column : JS.Settled (JS.Response (JS.value JS.v8)) :=
  JS.Fulfilled
    {| JS.status := 400;
       JS.json :=
         JS.Fulfilled (JS.JObject [("detail", JS.JString "bad column")]) |}.

(** [200] with the body [{}] *)
Definition created_empty_body : JS.Settled (JS.Response (JS.value JS.v8)) :=
  JS.Fulfilled {| JS.status := 200; JS.json := JS.Fulfilled (JS.JObject []) |}.

(** The request never got an answer. *)
Definition unreachable : JS.Settled (JS.Response (JS.value JS.v8)) :=
  JS.Rejected {| JS.name := "TypeError"; JS.message := "Failed to fetch" |}.

(** A roster of one agent, which has no name. *)
Definition lone_agent : Agent.t :=
  {| Agent.id := "agent_42"; Agent.name := NameNull |}.

Definition roster_of_one : JS.Settled (JS.Response (list Agent.t)) :=
  JS.Fulfilled {| JS.status := 200; JS.json := JS.Fulfilled [lone_agent] |}.

(** The roster arrives, the user picks the file and the agent, and clicks. *)
Definition session : list (Page.Event JS.v8) :=
  [Page.AgentsSettled roster_of_one;
   Page.FileChange [leads_csv];
   Page.AgentChange "agent_42";
   Page.Click].

(** The page after [session], with the upload on its way. *)
Definition submitting : Page.t :=
  {| Page.state :=
       CreateCampaign.setMessageType ""
         (CreateCampaign.setMessage ""
            (CreateCampaign.setLoading true
               (CreateCampaign.setSelectedAgent "agent_42"
                  (CreateCampaign.setSelectedFile (FileUpload.Chosen leads_csv)
                     (CreateCampaign.setAgentLoading false
                        (CreateCampaign.setAgents [lone_agent]
                           CreateCampaign.initial))))));
     Page.agents_pending := false;
     Page.uploads :=
       [{| CreateCampaign.url := "http://localhost:8000/api/v1/upload-leads";
           CreateCampaign.method := "POST";
           CreateCampaign.body :=
             [("file", CreateCampaign.FormFile leads_csv);
              ("agent_id", CreateCampaign.FormText "agent_42")] |}] |}.

End Sample.

(** ** More sample data: sessions of the campaign page *)

Module Scenario.

(** The roster request is answered with status 500. *)
Definition roster_refused : JS.Settled (JS.Response (list Agent.t)) :=
  JS.Fulfilled {| JS.status := 500; JS.json := JS.Fulfilled [] |}.

(** The roster fails to load and the user picks a file all the same. *)
Definition without_roster : list (Page.Event JS.v8) :=
  [Page.AgentsSettled roster_refused; Page.FileChange [Sample.leads_csv]].

(** The page after [without_roster]. *)
Definition stranded : Page.t :=
  {| Page.state :=
       CreateCampaign.setSelectedFile (FileUpload.Chosen Sample.leads_csv)
         (CreateCampaign.setAgentLoading false
            (CreateCampaign.setAgentError "HTTP error! status: 500"
               CreateCampaign.initial));
     Page.agents_pending := false;
     Page.uploads := [] |}.

(** The upload of [Sample.session] is refused for a bad column. *)
Definition refused : list (Page.Event JS.v8) :=
  (Sample.session ++ [Page.UploadSettled Sample.bad_column])%list.

(** The page after [refused]. *)
Definition after_refusal : Page.t :=
  {| Page.state :=
       CreateCampaign.setLoading false
         (CreateCampaign.setMessageType "error"
            (CreateCampaign.setMessage "Campaign creation failed: bad column"
               (Page.state Sample.submitting)));
     Page.agents_pending := false;
     Page.uploads := [] |}.

(** [422] with a validation error of two entries for a body. *)
Definition unprocessable : JS.Response (JS.value JS.v8) :=
  {| JS.status := 422;
     JS.json :=
       JS.Fulfilled
         (JS.JObject
            [("detail",
              JS.JArray
                [JS.JObject [("msg", JS.JString "field required")];
                 JS.JObject [("msg", JS.JString "field required")]])]) |}.

End Scenario.

(** * Properties *)

(** ** Strings *)

Lemma append_empty (s : string) : s ++ "" = s.
Proof.
  induction s as [|ch s IH]; simpl.
  - reflexivity.
  - rewrite IH. reflexivity.
Qed.

Lemma incorporates_suffix (pre part : string) :
  incorporates (pre ++ part) part.
Proof. exists pre, "". rewrite append_empty. reflexivity. Qed.

Lemma starts_with_spec (part msg : string) :
  starts_with part msg = true <-> exists post, msg = part ++ post.
Proof.
  revert msg. induction part as [|a part IH]; intros msg; simpl.
  - split; [intros _; exists msg; reflexivity | reflexivity].
  - destruct msg as [|b msg].
    + split; [discriminate | intros [post H]; discriminate].
    + rewrite andb_true_iff, IH. split.
      * intros [Hab [post ->]]. apply Ascii.eqb_eq in Hab. subst b.
        exists post. reflexivity.
      * intros [post H]. injection H as -> ->. split.
        -- apply Ascii.eqb_refl.
        -- exists post. reflexivity.
Qed.

Lemma occurs_in_spec (part msg : string) :
  occurs_in part msg = true <-> incorporates msg part.
Proof.
  unfold incorporates. induction msg as [|b msg IH].
  - simpl. rewrite orb_false_r, starts_with_spec. split.
    + intros [post H]. exists "", post. exact H.
    + intros [pre [post H]]. destruct pre; simpl in H.
      * exists post. exact H.
      * discriminate.
  - cbn [occurs_in]. rewrite orb_true_iff, starts_with_spec, IH. split.
    + intros [[post H] | [pre [post H]]].
      * exists "", post. exact H.
      * exists (String b pre), post. simpl. rewrite H. reflexivity.
    + intros [pre [post H]]. destruct pre as [|c pre]; simpl in H.
      * left. exists post. exact H.
      * right. injection H as _ H. exists pre, post. exact H.
Qed.

Lemma not_incorporates (part msg : string) :
  occurs_in part msg = false -> ~ incorporates msg part.
Proof.
  intros H Hin. apply occurs_in_spec in Hin. congruence.
Qed.

(** ** Navigation *)

(** C10: the content area holds the campaign form exactly when the active
    section is ['create-campaign'], and the agent dashboard for every other
    value of the navigation state: ['dashboard'] itself and any value that
    names no section. *)
Theorem renderContent_sections (activeSection : string) :
  (App.renderContent activeSection = App.CreateCampaign App.API_BASE_URL
   <-> activeSection = "create-campaign")
  /\ (App.renderContent activeSection = App.Dashboard App.API_BASE_URL
      <-> activeSection <> "create-campaign")
  /\ App.renderContent "dashboard" = App.Dashboard App.API_BASE_URL.
Proof.
  unfold App.renderContent.
  destruct (String.eqb_spec activeSection "dashboard") as [Hd | Hd].
  - subst activeSection. split; [|split].
    + split; intros H; discriminate H.
    + split; [intros _ H; discriminate H | reflexivity].
    + reflexivity.
  - destruct (String.eqb_spec activeSection "create-campaign") as [Hc | Hc].
    + split; [|split].
      * split; [intros _; exact Hc | reflexivity].
      * split; [intros H; discriminate H | intros H; contradiction].
      * reflexivity.
    + split; [|split].
      * split; [intros H; discriminate H | intros H; contradiction].
      * split; [intros _; exact Hc | reflexivity].
      * reflexivity.
Qed.

(** ** Agent names *)

Lemma name_or_absent (name : Name) (fallback : string) :
  name = NameUndefined \/ name = NameNull \/ name = NameString "" ->
  name_or name fallback = fallback.
Proof. intros [-> | [-> | ->]]; reflexivity. Qed.

Lemma name_or_present (s fallback : string) :
  s <> "" -> name_or (NameString s) fallback = s.
Proof.
  intros Hs. simpl. apply String.eqb_neq in Hs. rewrite Hs. reflexivity.
Qed.

(** C8: an agent whose name is absent (not there, [null] or empty) is
    listed in the selection control under its id and headed "Unnamed Agent"
    on its roster card; an agent with a name is shown under that name, as it
    is, in both places.  The options of the control are these labels, one
    per loaded agent. *)
Theorem agent_name_fallback (agent : Agent.t) :
  let in_select := AgentSelect.label (AgentSelect.choice agent) in
  let on_card := AgentCard.AgentCard (Some agent) in
  ((Agent.name agent = NameUndefined \/ Agent.name agent = NameNull
    \/ Agent.name agent = NameString "") ->
   in_select = Agent.id agent
   /\ on_card = Some {| AgentCard.heading := "Unnamed Agent";
                        AgentCard.id_text := Agent.id agent |})
  /\ (forall s, Agent.name agent = NameString s -> s <> "" ->
      in_select = s
      /\ on_card = Some {| AgentCard.heading := s;
                           AgentCard.id_text := Agent.id agent |})
  /\ (forall others selectedAgent,
      AgentSelect.AgentSelect (agent :: others) selectedAgent false None
      = AgentSelect.Select selectedAgent
          (AgentSelect.choice agent :: map AgentSelect.choice others)).
Proof.
  cbv zeta. split; [|split].
  - intros Habsent. unfold AgentSelect.choice, AgentCard.AgentCard. simpl.
    rewrite !(name_or_absent _ _ Habsent). split; reflexivity.
  - intros s Hname Hs. unfold AgentSelect.choice, AgentCard.AgentCard. simpl.
    rewrite Hname, !(name_or_present _ _ Hs). split; reflexivity.
  - intros others selectedAgent. reflexivity.
Qed.

(** The labels of two agents, one named and one with a [null] name. *)
Lemma agent_name_fallback_witness :
  AgentSelect.label
    (AgentSelect.choice {| Agent.id := "agent_42"; Agent.name := NameNull |})
  = "agent_42"
  /\ AgentCard.AgentCard
       (Some {| Agent.id := "agent_42"; Agent.name := NameNull |})
     = Some {| AgentCard.heading := "Unnamed Agent";
               AgentCard.id_text := "agent_42" |}.
Proof.
  apply (agent_name_fallback
           {| Agent.id := "agent_42"; Agent.name := NameNull |}).
  right. left. reflexivity.
Defined.

(** ** The roster view *)






(** ** The campaign form: what a settled upload leaves *)

Section Upload.
Context (host : JS.Host).

Local Notation "'settled'" :=
  (CreateCampaign.handleCreateCampaign_settled host) (at level 0).

Ltac run_settled :=
  unfold CreateCampaign.handleCreateCampaign_settled, try_catch_finally,
    bind, await, eval, set, ret, throw;
  simpl.

(** The state the [catch] block and [finally] leave for a caught [e]. *)
Lemma settled_fetch_rejected (e : JS.Error) (st : CreateCampaign.State) :
  settled (JS.Rejected e) st
  = (inr tt,
     CreateCampaign.setLoading false
       (CreateCampaign.setMessageType "error"
          (CreateCampaign.setMessage
             ("An error occurred: " ++ JS.message e) st))).
Proof. reflexivity. Qed.

Lemma settled_json_rejected (response : JS.Response (JS.value host))
  (e : JS.Error) (st : CreateCampaign.State) :
  JS.json response = JS.Rejected e ->
  settled (JS.Fulfilled response) st
  = (inr tt,
     CreateCampaign.setLoading false
       (CreateCampaign.setMessageType "error"
          (CreateCampaign.setMessage
             ("An error occurred: " ++ JS.message e) st))).
Proof.
  intros Hjson. run_settled.
  destruct (JS.ok response); simpl; rewrite Hjson; reflexivity.
Qed.

Lemma settled_created (response : JS.Response (JS.value host))
  (data lead_ids : JS.value host) (count : string)
  (st : CreateCampaign.State) :
  JS.ok response = true ->
  JS.json response = JS.Fulfilled data ->
  JS.get_property data "lead_ids" = inr lead_ids ->
  JS.length_text lead_ids = inr count ->
  settled (JS.Fulfilled response) st
  = (inr tt,
     CreateCampaign.setLoading false
       (CreateCampaign.setSelectedFile FileUpload.Null
          (CreateCampaign.setMessageType "success"
             (CreateCampaign.setMessage
                ("Campaign created! Processed " ++ count ++ " leads.") st)))).
Proof.
  intros Hok Hjson Hids Hcount. run_settled.
  rewrite Hok. simpl. rewrite Hjson, Hids. simpl. rewrite Hcount.
  reflexivity.
Qed.

Lemma settled_created_throws (response : JS.Response (JS.value host))
  (data : JS.value host) (e : JS.Error) (st : CreateCampaign.State) :
  JS.ok response = true ->
  JS.json response = JS.Fulfilled data ->
  (JS.get_property data "lead_ids" = inl e
   \/ exists lead_ids,
        JS.get_property data "lead_ids" = inr lead_ids
        /\ JS.length_text lead_ids = inl e) ->
  settled (JS.Fulfilled response) st
  = (inr tt,
     CreateCampaign.setLoading false
       (CreateCampaign.setMessageType "error"
          (CreateCampaign.setMessage
             ("An error occurred: " ++ JS.message e) st))).
Proof.
  intros Hok Hjson [Hids | [lead_ids [Hids Hcount]]]; run_settled;
    rewrite Hok; simpl; rewrite Hjson, Hids; simpl.
  - reflexivity.
  - rewrite Hcount. reflexivity.
Qed.

Lemma settled_refused (response : JS.Response (JS.value host))
  (errorData detail : JS.value host) (shown : string)
  (st : CreateCampaign.State) :
  JS.ok response = false ->
  JS.json response = JS.Fulfilled errorData ->
  JS.get_property errorData "detail" = inr detail ->
  JS.to_string (JS.or_else detail (JS.JString "Unknown error")) = inr shown ->
  settled (JS.Fulfilled response) st
  = (inr tt,
     CreateCampaign.setLoading false
       (CreateCampaign.setMessageType "error"
          (CreateCampaign.setMessage
             ("Campaign creation failed: " ++ shown) st))).
Proof.
  intros Hok Hjson Hdetail Hshown. run_settled.
  rewrite Hok. simpl. rewrite Hjson, Hdetail. simpl. rewrite Hshown.
  reflexivity.
Qed.

Lemma settled_refused_throws (response : JS.Response (JS.value host))
  (errorData : JS.value host) (e : JS.Error) (st : CreateCampaign.State) :
  JS.ok response = false ->
  JS.json response = JS.Fulfilled errorData ->
  (JS.get_property errorData "detail" = inl e
   \/ exists detail,
        JS.get_property errorData "detail" = inr detail
        /\ JS.to_string (JS.or_else detail (JS.JString "Unknown error"))
           = inl e) ->
  settled (JS.Fulfilled response) st
  = (inr tt,
     CreateCampaign.setLoading false
       (CreateCampaign.setMessageType "error"
          (CreateCampaign.setMessage
             ("An error occurred: " ++ JS.message e) st))).
Proof.
  intros Hok Hjson [Hdetail | [detail [Hdetail Hshown]]]; run_settled;
    rewrite Hok; simpl; rewrite Hjson, Hdetail; simpl.
  - reflexivity.
  - rewrite Hshown. reflexivity.
Qed.

(** Every way a reply can go is one of the cases above: the handler ends
    normally, with [loading] false, and writes nothing but the message, its
    type, the loading flag and, for a created campaign, the file. *)
Lemma settled_frame (reply : JS.Settled (JS.Response (JS.value host)))
  (st : CreateCampaign.State) :
  let st' := snd (settled reply st) in
  fst (settled reply st) = inr tt
  /\ CreateCampaign.loading st' = false
  /\ CreateCampaign.selectedAgent st' = CreateCampaign.selectedAgent st
  /\ CreateCampaign.agents st' = CreateCampaign.agents st
  /\ CreateCampaign.agentLoading st' = CreateCampaign.agentLoading st
  /\ CreateCampaign.agentError st' = CreateCampaign.agentError st
  /\ CreateCampaign.message st' <> ""
  /\ (CreateCampaign.messageType st' = "success"
      \/ CreateCampaign.messageType st' = "error"
         /\ CreateCampaign.selectedFile st' = CreateCampaign.selectedFile st).
Proof.
  cbv zeta. destruct reply as [response | e].
  2: { rewrite settled_fetch_rejected. simpl. intuition discriminate. }
  destruct (JS.json response) as [data | e] eqn:Hjson.
  2: { rewrite (settled_json_rejected response e st Hjson). simpl.
       intuition discriminate. }
  destruct (JS.ok response) eqn:Hok.
  - destruct (JS.get_property data "lead_ids") as [e | lead_ids] eqn:Hids.
    + rewrite (settled_created_throws response data e st Hok Hjson).
      * simpl. intuition discriminate.
      * left. exact Hids.
    + destruct (JS.length_text lead_ids) as [e | count] eqn:Hcount.
      * rewrite (settled_created_throws response data e st Hok Hjson).
        -- simpl. intuition discriminate.
        -- right. exists lead_ids. split; assumption.
      * rewrite (settled_created response data lead_ids count st
                   Hok Hjson Hids Hcount).
        simpl. intuition discriminate.
  - destruct (JS.get_property data "detail") as [e | detail] eqn:Hdetail.
    + rewrite (settled_refused_throws response data e st Hok Hjson).
      * simpl. intuition discriminate.
      * left. exact Hdetail.
    + destruct (JS.to_string (JS.or_else detail (JS.JString "Unknown error")))
        as [e | shown] eqn:Hshown.
      * rewrite (settled_refused_throws response data e st Hok Hjson).
        -- simpl. intuition discriminate.
        -- right. exists detail. split; assumption.
      * rewrite (settled_refused response data detail shown st
                   Hok Hjson Hdetail Hshown).
        simpl. intuition discriminate.
Qed.

End Upload.

(** ** The campaign form: a submit *)

Section Submit.
Context (host : JS.Host) (apiBaseUrl : string).

(** The state a submit that passed both guards leaves at its [await]. *)
Lemma handleCreateCampaign_proceeds (st : CreateCampaign.State)
  (file : File.t) :
  CreateCampaign.selectedFile st = FileUpload.Chosen file ->
  CreateCampaign.selectedAgent st <> "" ->
  CreateCampaign.handleCreateCampaign apiBaseUrl st
  = (CreateCampaign.setMessageType ""
       (CreateCampaign.setMessage "" (CreateCampaign.setLoading true st)),
     CreateCampaign.Awaiting
       {| CreateCampaign.url := apiBaseUrl ++ "/api/v1/upload-leads";
          CreateCampaign.method := "POST";
          CreateCampaign.body :=
            [("file", CreateCampaign.FormFile file);
             ("agent_id",
              CreateCampaign.FormText (CreateCampaign.selectedAgent st))] |}).
Proof.
  intros Hfile Hagent. unfold CreateCampaign.handleCreateCampaign.
  rewrite Hfile. apply String.eqb_neq in Hagent. rewrite Hagent.
  reflexivity.
Qed.

Lemma submit_proceeds (st : CreateCampaign.State) (file : File.t)
  (reply : JS.Settled (JS.Response (JS.value host))) :
  CreateCampaign.selectedFile st = FileUpload.Chosen file ->
  CreateCampaign.selectedAgent st <> "" ->
  CreateCampaign.submit host apiBaseUrl st reply
  = snd (CreateCampaign.handleCreateCampaign_settled host reply
           (CreateCampaign.setMessageType ""
              (CreateCampaign.setMessage ""
                 (CreateCampaign.setLoading true st)))).
Proof.
  intros Hfile Hagent. unfold CreateCampaign.submit.
  rewrite (handleCreateCampaign_proceeds st file Hfile Hagent).
  reflexivity.
Qed.

(** The alert under the button shows the message whenever there is one. *)
Lemma alert_shown (st : CreateCampaign.State) :
  CreateCampaign.message st <> "" ->
  CreateCampaign.alert (CreateCampaign.CreateCampaign st)
  = Some (AlertMessage.AlertMessage
            (CreateCampaign.messageType st) (CreateCampaign.message st)).
Proof.
  intros Hmessage. unfold CreateCampaign.CreateCampaign. simpl.
  apply String.eqb_neq in Hmessage. rewrite Hmessage. reflexivity.
Qed.

(** C4: a submit with no file selected reports "Please select a CSV file
    to upload." as an error, shown in the red alert, and sends nothing,
    whatever the agent selection is; with a file but no agent it reports
    "Please select an agent for the campaign." in the same way and sends
    nothing; with both it sets the loading flag, clears the message and
    sends one POST to the upload address whose multipart body holds the
    file under [file] and the agent id under [agent_id]; and a request is
    sent in no other case. *)
Theorem submit_guards (st : CreateCampaign.State) :
  let result := CreateCampaign.handleCreateCampaign apiBaseUrl st in
  let st' := fst result in
  let reported text :=
    snd result = CreateCampaign.Returned
    /\ CreateCampaign.message st' = text
    /\ CreateCampaign.messageType st' = "error"
    /\ CreateCampaign.alert (CreateCampaign.CreateCampaign st')
       = Some {| AlertMessage.bgColor := "bg-red-100";
                 AlertMessage.textColor := "text-red-800";
                 AlertMessage.Icon := AlertMessage.XCircle;
                 AlertMessage.text := text |}
    /\ CreateCampaign.selectedFile st' = CreateCampaign.selectedFile st
    /\ CreateCampaign.selectedAgent st' = CreateCampaign.selectedAgent st
    /\ CreateCampaign.loading st' = CreateCampaign.loading st
    /\ CreateCampaign.requests_of apiBaseUrl st = [] in
  (FileUpload.truthy (CreateCampaign.selectedFile st) = false ->
   result
   = (CreateCampaign.setMessageType "error"
        (CreateCampaign.setMessage "Please select a CSV file to upload." st),
      CreateCampaign.Returned)
   /\ reported "Please select a CSV file to upload.")
  /\ (FileUpload.truthy (CreateCampaign.selectedFile st) = true ->
      CreateCampaign.selectedAgent st = "" ->
      result
      = (CreateCampaign.setMessageType "error"
           (CreateCampaign.setMessage
              "Please select an agent for the campaign." st),
         CreateCampaign.Returned)
      /\ reported "Please select an agent for the campaign.")
  /\ (forall file,
        CreateCampaign.selectedFile st = FileUpload.Chosen file ->
        CreateCampaign.selectedAgent st <> "" ->
        CreateCampaign.requests_of apiBaseUrl st
        = [{| CreateCampaign.url := apiBaseUrl ++ "/api/v1/upload-leads";
              CreateCampaign.method := "POST";
              CreateCampaign.body :=
                [("file", CreateCampaign.FormFile file);
                 ("agent_id",
                  CreateCampaign.FormText
                    (CreateCampaign.selectedAgent st))] |}]
        /\ CreateCampaign.loading st' = true
        /\ CreateCampaign.message st' = ""
        /\ CreateCampaign.messageType st' = ""
        /\ CreateCampaign.alert (CreateCampaign.CreateCampaign st') = None
        /\ CreateCampaign.selectedFile st' = CreateCampaign.selectedFile st
        /\ CreateCampaign.selectedAgent st' = CreateCampaign.selectedAgent st)
  /\ (forall request,
        In request (CreateCampaign.requests_of apiBaseUrl st) ->
        FileUpload.truthy (CreateCampaign.selectedFile st) = true
        /\ CreateCampaign.selectedAgent st <> "").
Proof.
  cbv zeta.
  unfold CreateCampaign.requests_of, CreateCampaign.handleCreateCampaign.
  split; [|split; [|split]].
  - intros Hnone.
    destruct (CreateCampaign.selectedFile st) eqn:Hfile;
      try discriminate Hnone; simpl;
      (split; [reflexivity|]); do 4 (split; [reflexivity|]);
      (split; [exact Hfile|]); repeat split.
  - intros Hsome Hagent.
    destruct (CreateCampaign.selectedFile st) eqn:Hfile;
      try discriminate Hsome.
    rewrite Hagent. simpl.
    split; [reflexivity|]. do 4 (split; [reflexivity|]).
    split; [exact Hfile|].
    split; [exact Hagent|]. split; reflexivity.
  - intros file Hfile Hagent. rewrite Hfile.
    apply String.eqb_neq in Hagent. rewrite Hagent. simpl.
    do 5 (split; [reflexivity|]). split; [exact Hfile|].
    reflexivity.
  - intros request.
    destruct (CreateCampaign.selectedFile st); simpl; try contradiction.
    destruct (String.eqb_spec (CreateCampaign.selectedAgent st) "")
      as [Hagent | Hagent]; simpl; try contradiction.
    intros _. split; [reflexivity | exact Hagent].
Qed.

End Submit.

(** The empty form, the form with a file only, and the filled form. *)
Lemma submit_guards_witness :
  CreateCampaign.requests_of Sample.apiBaseUrl CreateCampaign.initial = []
  /\ CreateCampaign.message
       (fst (CreateCampaign.handleCreateCampaign Sample.apiBaseUrl
               CreateCampaign.initial))
     = "Please select a CSV file to upload."
  /\ CreateCampaign.messageType
       (fst (CreateCampaign.handleCreateCampaign Sample.apiBaseUrl
               CreateCampaign.initial))
     = "error"
  /\ CreateCampaign.requests_of Sample.apiBaseUrl
       (CreateCampaign.setSelectedFile (FileUpload.Chosen Sample.leads_csv)
          CreateCampaign.initial)
     = []
  /\ CreateCampaign.messageType
       (fst (CreateCampaign.handleCreateCampaign Sample.apiBaseUrl
               (CreateCampaign.setSelectedFile
                  (FileUpload.Chosen Sample.leads_csv)
                  CreateCampaign.initial)))
     = "error"
  /\ CreateCampaign.requests_of Sample.apiBaseUrl Sample.filled
     = [{| CreateCampaign.url := "http://localhost:8000/api/v1/upload-leads";
           CreateCampaign.method := "POST";
           CreateCampaign.body :=
             [("file", CreateCampaign.FormFile Sample.leads_csv);
              ("agent_id", CreateCampaign.FormText "agent_42")] |}].
Proof.
  destruct (submit_guards Sample.apiBaseUrl CreateCampaign.initial)
    as (Hfile & _).
  destruct (submit_guards Sample.apiBaseUrl
              (CreateCampaign.setSelectedFile
                 (FileUpload.Chosen Sample.leads_csv) CreateCampaign.initial))
    as (_ & Hagent & _).
  destruct (submit_guards Sample.apiBaseUrl Sample.filled)
    as (_ & _ & Hboth & _).
  destruct (Hfile eq_refl)
    as (_ & _ & Hmessage & Htype & _ & _ & _ & _ & Hnone).
  destruct (Hagent eq_refl eq_refl)
    as (_ & _ & _ & Htype' & _ & _ & _ & _ & Hnone').
  split; [exact Hnone|]. split; [exact Hmessage|]. split; [exact Htype|].
  split; [exact Hnone'|]. split; [exact Htype'|].
  apply (Hboth Sample.leads_csv eq_refl). discriminate.
Defined.

(** Running a submit inside a proof: [run_submit Hfile Hagent] takes the
    click through both guards, and [run_reply] unfolds the part of the
    handler that runs on the reply. *)
Ltac run_reply :=
  unfold CreateCampaign.handleCreateCampaign_settled, try_catch_finally,
    bind, await, eval, set, ret, throw;
  simpl.

Ltac run_submit Hfile Hagent :=
  unfold CreateCampaign.submit, CreateCampaign.handleCreateCampaign;
  rewrite Hfile;
  rewrite (proj2 (String.eqb_neq _ _) Hagent);
  run_reply.

(** ** The campaign form: the three outcomes of an upload *)

Section Outcomes.
Context (host : JS.Host) (apiBaseUrl : string).

(** C2: a submit with a file and an agent selected whose POST is answered
    with a success status and a body holding a [lead_ids] array ends with
    the message reporting the number of elements of that array, shown with
    the success styling, the file selection cleared, the agent selection as
    it was, and the form idle again. *)
Theorem campaign_created (st : CreateCampaign.State) (file : File.t)
  (response : JS.Response (JS.value host))
  (members : list (string * JS.value host))
  (lead_ids : list (JS.value host)) :
  CreateCampaign.selectedFile st = FileUpload.Chosen file ->
  CreateCampaign.selectedAgent st <> "" ->
  JS.ok response = true ->
  JS.json response = JS.Fulfilled (JS.JObject members) ->
  JS.own_member "lead_ids" members = Some (JS.JArray lead_ids) ->
  let st' :=
    CreateCampaign.submit host apiBaseUrl st (JS.Fulfilled response) in
  CreateCampaign.message st'
  = "Campaign created! Processed " ++ decimal (List.length lead_ids)
    ++ " leads."
  /\ CreateCampaign.messageType st' = "success"
  /\ CreateCampaign.alert (CreateCampaign.CreateCampaign st')
     = Some {| AlertMessage.bgColor := "bg-green-100";
               AlertMessage.textColor := "text-green-800";
               AlertMessage.Icon := AlertMessage.CircleCheck;
               AlertMessage.text := CreateCampaign.message st' |}
  /\ CreateCampaign.selectedFile st' = FileUpload.Null
  /\ CreateCampaign.selectedAgent st' = CreateCampaign.selectedAgent st
  /\ CreateCampaign.loading st' = false
  /\ CreateCampaign.label
       (CreateCampaign.button (CreateCampaign.CreateCampaign st'))
     = "Create Campaign".
Proof.
  intros Hfile Hagent Hok Hjson Hids st'. subst st'.
  run_submit Hfile Hagent.
  rewrite Hok. simpl. rewrite Hjson. simpl. rewrite Hids. simpl.
  unfold CreateCampaign.CreateCampaign. simpl.
  repeat split; reflexivity.
Qed.

(** C6: a submit whose POST fails in transport, either because [fetch]
    itself rejects and there is no response, or because the body of the
    response cannot be decoded, ends with a message that carries the text
    of the caught error, shown with the failure styling, and with the form
    idle again. *)
Theorem transport_failure (st : CreateCampaign.State) (file : File.t)
  (reply : JS.Settled (JS.Response (JS.value host))) (e : JS.Error) :
  CreateCampaign.selectedFile st = FileUpload.Chosen file ->
  CreateCampaign.selectedAgent st <> "" ->
  (reply = JS.Rejected e
   \/ exists response,
        reply = JS.Fulfilled response /\ JS.json response = JS.Rejected e) ->
  let st' := CreateCampaign.submit host apiBaseUrl st reply in
  CreateCampaign.message st' = "An error occurred: " ++ JS.message e
  /\ incorporates (CreateCampaign.message st') (JS.message e)
  /\ CreateCampaign.messageType st' = "error"
  /\ CreateCampaign.alert (CreateCampaign.CreateCampaign st')
     = Some {| AlertMessage.bgColor := "bg-red-100";
               AlertMessage.textColor := "text-red-800";
               AlertMessage.Icon := AlertMessage.XCircle;
               AlertMessage.text := CreateCampaign.message st' |}
  /\ CreateCampaign.loading st' = false.
Proof.
  intros Hfile Hagent Hreply st'. subst st'.
  run_submit Hfile Hagent.
  assert (Hsuffix :
    incorporates ("An error occurred: " ++ JS.message e) (JS.message e))
    by apply incorporates_suffix.
  unfold CreateCampaign.CreateCampaign.
  destruct Hreply as [-> | [response [-> Hjson]]]; simpl.
  - split; [reflexivity|]. split; [exact Hsuffix|].
    repeat split; reflexivity.
  - destruct (JS.ok response); simpl; rewrite Hjson; simpl;
      (split; [reflexivity|]); (split; [exact Hsuffix|]);
      repeat split; reflexivity.
Qed.

End Outcomes.

(** The example of a created campaign: three leads. *)
Lemma campaign_created_witness :
  let st' :=
    CreateCampaign.submit JS.v8 Sample.apiBaseUrl Sample.filled
      Sample.created in
  CreateCampaign.message st' = "Campaign created! Processed 3 leads."
  /\ CreateCampaign.messageType st' = "success"
  /\ CreateCampaign.selectedFile st' = FileUpload.Null
  /\ CreateCampaign.selectedAgent st' = "agent_42"
  /\ CreateCampaign.loading st' = false.
Proof.
  pose proof
    (campaign_created JS.v8 Sample.apiBaseUrl Sample.filled Sample.leads_csv
       {| JS.status := 200;
          JS.json :=
            JS.Fulfilled
              (JS.JObject
                 [("lead_ids",
                   JS.JArray
                     [JS.JString "1"; JS.JString "2"; JS.JString "3"])]) |}
       [("lead_ids",
         JS.JArray [JS.JString "1"; JS.JString "2"; JS.JString "3"])]
       [JS.JString "1"; JS.JString "2"; JS.JString "3"]
       eq_refl ltac:(discriminate) eq_refl eq_refl eq_refl) as H.
  cbv zeta in H. destruct H as (Hm & Ht & _ & Hf & Ha & Hl & _).
  cbv zeta. repeat split; assumption.
Defined.

(** The example of a server that cannot be reached. *)
Lemma transport_failure_witness :
  CreateCampaign.message
    (CreateCampaign.submit JS.v8 Sample.apiBaseUrl Sample.filled
       Sample.unreachable)
  = "An error occurred: Failed to fetch".
Proof.
  apply (transport_failure JS.v8 Sample.apiBaseUrl Sample.filled
           Sample.leads_csv Sample.unreachable
           {| JS.name := "TypeError"; JS.message := "Failed to fetch" |}
           eq_refl ltac:(discriminate) (or_introl eq_refl)).
Defined.

(** ** The campaign form: replies outside the contract of the backend *)

Section Replies.
Context (host : JS.Host) (apiBaseUrl : string).

(** C3, as the handler has it: a submit whose POST is answered with a
    status that is not a success and a body that decodes ends with the
    failure styling, the form idle again, and the file and the agent
    selections as they were.  The message is "Campaign creation failed: "
    followed by the text of the body's [detail] member when the body is not
    [null] and that member is there, truthy and converts to text, as every
    string, number and boolean does (a non-empty string is shown as it
    is); it is "Campaign creation failed: Unknown error" when the body is
    not [null] and the member is missing or falsy; and it is "An error
    occurred: " followed by the text of the error raised, when reading
    [detail] raises (the body is [null]) or when converting a truthy
    [detail] to text raises (an object with a [toString] member of its
    own, or an array holding one). *)
Theorem upload_refused (st : CreateCampaign.State) (file : File.t)
  (response : JS.Response (JS.value host)) (errorData : JS.value host) :
  CreateCampaign.selectedFile st = FileUpload.Chosen file ->
  CreateCampaign.selectedAgent st <> "" ->
  JS.ok response = false ->
  JS.json response = JS.Fulfilled errorData ->
  let st' :=
    CreateCampaign.submit host apiBaseUrl st (JS.Fulfilled response) in
  CreateCampaign.messageType st' = "error"
  /\ CreateCampaign.alert (CreateCampaign.CreateCampaign st')
     = Some {| AlertMessage.bgColor := "bg-red-100";
               AlertMessage.textColor := "text-red-800";
               AlertMessage.Icon := AlertMessage.XCircle;
               AlertMessage.text := CreateCampaign.message st' |}
  /\ CreateCampaign.loading st' = false
  /\ CreateCampaign.selectedFile st' = CreateCampaign.selectedFile st
  /\ CreateCampaign.selectedAgent st' = CreateCampaign.selectedAgent st
  /\ (forall detail,
        JS.get_property errorData "detail" = inr detail ->
        (forall shown,
           JS.truthy detail = true -> JS.to_string detail = inr shown ->
           CreateCampaign.message st' = "Campaign creation failed: " ++ shown
           /\ incorporates (CreateCampaign.message st') shown)
        /\ (JS.truthy detail = false ->
            CreateCampaign.message st'
            = "Campaign creation failed: Unknown error")
        /\ (forall e,
              JS.truthy detail = true -> JS.to_string detail = inl e ->
              CreateCampaign.message st'
              = "An error occurred: " ++ JS.message e))
  /\ (forall e,
        JS.get_property errorData "detail" = inl e ->
        CreateCampaign.message st' = "An error occurred: " ++ JS.message e)
  /\ (errorData = JS.JNull ->
      CreateCampaign.message st'
      = "An error occurred: "
        ++ JS.type_error_message host (JS.ReadOfNull "detail"))
  /\ (forall s,
        JS.get_property errorData "detail" = inr (JS.JString s) ->
        s <> "" ->
        CreateCampaign.message st' = "Campaign creation failed: " ++ s)
  /\ (forall detail : JS.value host,
        match detail with
        | JS.JArray _ | JS.JObject _ => True
        | _ => exists shown, JS.to_string detail = inr shown
        end)
  /\ (forall members,
        JS.get_property errorData "detail" = inr (JS.JObject members) ->
        JS.own_member "toString" members <> None ->
        CreateCampaign.message st'
        = "An error occurred: "
          ++ JS.type_error_message host JS.NotPrimitive).
Proof.
  intros Hfile Hagent Hok Hjson st'. subst st'.
  run_submit Hfile Hagent.
  rewrite Hok. simpl. rewrite Hjson. simpl.
  unfold CreateCampaign.CreateCampaign, JS.or_else.
  assert (Hprimitive : forall detail : JS.value host,
    match detail with
    | JS.JArray _ | JS.JObject _ => True
    | _ => exists shown, JS.to_string detail = inr shown
    end).
  { intros detail. destruct detail as [| |[|]| | | |]; try exact I;
      eexists; reflexivity. }
  destruct (JS.get_property errorData "detail") as [e | detail] eqn:Hdetail;
    simpl.
  - do 3 (split; [reflexivity|]). split; [exact Hfile|].
    split; [reflexivity|].
    split; [|split; [|split; [|split; [|split]]]];
      try (intros; discriminate).
    + intros e' H. injection H as <-. reflexivity.
    + intros ->. simpl in Hdetail. injection Hdetail as <-. reflexivity.
    + exact Hprimitive.
  - destruct (JS.to_string
                (if JS.truthy detail then detail
                 else JS.JString "Unknown error"))
      as [e | shown] eqn:Hshown; simpl.
    + do 3 (split; [reflexivity|]). split; [exact Hfile|].
    split; [reflexivity|].
      split; [|split; [|split; [|split; [|split]]]].
      * intros d H. injection H as <-. split; [|split].
        -- intros shown Htruthy Hconverted.
           rewrite Htruthy in Hshown. congruence.
        -- intros Hfalsy. rewrite Hfalsy in Hshown. discriminate Hshown.
        -- intros e' Htruthy Hraised. rewrite Htruthy in Hshown.
           congruence.
      * intros e' H. discriminate H.
      * intros ->. discriminate Hdetail.
      * intros s H Hs. injection H as ->.
        apply String.eqb_neq in Hs. simpl in Hshown. rewrite Hs in Hshown.
        discriminate Hshown.
      * exact Hprimitive.
      * intros members H Hown. injection H as ->. simpl in Hshown.
        destruct (JS.own_member "toString" members); [|contradiction].
        injection Hshown as <-. reflexivity.
    + do 3 (split; [reflexivity|]). split; [exact Hfile|].
    split; [reflexivity|].
      split; [|split; [|split; [|split; [|split]]]].
      * intros d H. injection H as <-. split; [|split].
        -- intros shown' Htruthy Hconverted.
           rewrite Htruthy in Hshown.
           assert (shown' = shown) as -> by congruence.
           split; [reflexivity|].
           exact (incorporates_suffix "Campaign creation failed: " shown).
        -- intros Hfalsy. rewrite Hfalsy in Hshown.
           injection Hshown as <-. reflexivity.
        -- intros e' Htruthy Hraised. rewrite Htruthy in Hshown.
           congruence.
      * intros e' H. discriminate H.
      * intros ->. discriminate Hdetail.
      * intros s H Hs. injection H as ->.
        apply String.eqb_neq in Hs. simpl in Hshown. rewrite Hs in Hshown.
        injection Hshown as <-. reflexivity.
      * exact Hprimitive.
      * intros members H Hown. injection H as ->. simpl in Hshown.
        destruct (JS.own_member "toString" members); [|contradiction].
        discriminate Hshown.
Qed.

(** C9, as the handler has it: whatever the reply to an upload is, the part
    of the handler that runs after it ends normally with the in-flight flag
    reset to false, so on a success status, on any other status and on a
    thrown error alike; the flag was set when the request was sent.  A
    success reply whose body has no [lead_ids] member, or a [null] one,
    raises a [TypeError], which is caught and reported as a failure.  A
    success reply whose [lead_ids] can be read is reported as a created
    campaign when the text of its [length] can be formed, with that text
    for a count, and as a caught failure when forming it raises; for a
    number and for a boolean the text is "undefined" and nothing is
    raised. *)
Theorem upload_settles (reply : JS.Settled (JS.Response (JS.value host)))
  (st : CreateCampaign.State) :
  let result := CreateCampaign.handleCreateCampaign_settled host reply st in
  fst result = inr tt
  /\ CreateCampaign.loading (snd result) = false
  /\ CreateCampaign.label
       (CreateCampaign.button (CreateCampaign.CreateCampaign (snd result)))
     = "Create Campaign"
  /\ (forall st0 request,
        CreateCampaign.handleCreateCampaign apiBaseUrl st0
        = (st, CreateCampaign.Awaiting request) ->
        CreateCampaign.loading st = true)
  /\ (forall response data,
        reply = JS.Fulfilled response ->
        JS.ok response = true ->
        JS.json response = JS.Fulfilled data ->
        (forall v, JS.get_property data "lead_ids" = inr v ->
                   v = JS.JUndefined \/ v = JS.JNull) ->
        exists e,
          JS.name e = "TypeError"
          /\ CreateCampaign.message (snd result)
             = "An error occurred: " ++ JS.message e
          /\ CreateCampaign.messageType (snd result) = "error"
          /\ CreateCampaign.alert
               (CreateCampaign.CreateCampaign (snd result))
             = Some {| AlertMessage.bgColor := "bg-red-100";
                       AlertMessage.textColor := "text-red-800";
                       AlertMessage.Icon := AlertMessage.XCircle;
                       AlertMessage.text :=
                         "An error occurred: " ++ JS.message e |}
          /\ CreateCampaign.selectedFile (snd result)
             = CreateCampaign.selectedFile st)
  /\ (forall response data lead_ids,
        reply = JS.Fulfilled response ->
        JS.ok response = true ->
        JS.json response = JS.Fulfilled data ->
        JS.get_property data "lead_ids" = inr lead_ids ->
        (forall count,
           JS.length_text lead_ids = inr count ->
           CreateCampaign.message (snd result)
           = "Campaign created! Processed " ++ count ++ " leads."
           /\ CreateCampaign.messageType (snd result) = "success"
           /\ CreateCampaign.selectedFile (snd result) = FileUpload.Null)
        /\ (forall e,
              JS.length_text lead_ids = inl e ->
              CreateCampaign.message (snd result)
              = "An error occurred: " ++ JS.message e
              /\ CreateCampaign.messageType (snd result) = "error"
              /\ CreateCampaign.selectedFile (snd result)
                 = CreateCampaign.selectedFile st)
        /\ ((exists n, lead_ids = JS.JNumber n)
            \/ (exists b, lead_ids = JS.JBool b) ->
            CreateCampaign.message (snd result)
            = "Campaign created! Processed undefined leads."
            /\ CreateCampaign.messageType (snd result) = "success"
            /\ CreateCampaign.selectedFile (snd result) = FileUpload.Null)).
Proof.
  cbv zeta.
  assert (Hidle :
    fst (CreateCampaign.handleCreateCampaign_settled host reply st) = inr tt
    /\ CreateCampaign.loading
         (snd (CreateCampaign.handleCreateCampaign_settled host reply st))
       = false
    /\ CreateCampaign.label
         (CreateCampaign.button
            (CreateCampaign.CreateCampaign
               (snd (CreateCampaign.handleCreateCampaign_settled host reply
                       st))))
       = "Create Campaign").
  { unfold CreateCampaign.CreateCampaign. run_reply.
    destruct reply as [response | e]; simpl;
      [|split; [|split]; reflexivity].
    destruct (JS.ok response); simpl;
      (destruct (JS.json response) as [data | e]; simpl;
       [|split; [|split]; reflexivity]).
    - destruct (JS.get_property data "lead_ids") as [e | lead_ids]; simpl;
        [split; [|split]; reflexivity|].
      destruct (JS.length_text lead_ids); simpl;
        (split; [|split]; reflexivity).
    - destruct (JS.get_property data "detail") as [e | detail]; simpl;
        [split; [|split]; reflexivity|].
      destruct (JS.to_string _); simpl; (split; [|split]; reflexivity). }
  destruct Hidle as (Hend & Hloading & Hlabel).
  split; [exact Hend|]. split; [exact Hloading|].
  split; [exact Hlabel|]. split; [|split].
  - intros st0 request. unfold CreateCampaign.handleCreateCampaign.
    destruct (CreateCampaign.selectedFile st0); try discriminate.
    destruct (CreateCampaign.selectedAgent st0 =? ""); try discriminate.
    intros H. injection H as <- _. reflexivity.
  - intros response data -> Hok Hjson Hlacks.
    unfold CreateCampaign.CreateCampaign. run_reply.
    rewrite Hok. simpl. rewrite Hjson. simpl.
    destruct (JS.get_property data "lead_ids") as [e | v] eqn:Hids; simpl.
    + exists e. split; [|repeat split; reflexivity].
      destruct data; simpl in Hids; try discriminate Hids;
        injection Hids as <-; reflexivity.
    + destruct (Hlacks v eq_refl) as [-> | ->]; simpl.
      * exists (JS.TypeError host (JS.ReadOfUndefined "length")).
        repeat split; reflexivity.
      * exists (JS.TypeError host (JS.ReadOfNull "length")).
        repeat split; reflexivity.
  - intros response data lead_ids -> Hok Hjson Hids.
    run_reply. rewrite Hok. simpl. rewrite Hjson. simpl.
    rewrite Hids. simpl. split; [|split].
    + intros count Hcount. rewrite Hcount. simpl.
      repeat split; reflexivity.
    + intros e Hraised. rewrite Hraised. simpl.
      repeat split; reflexivity.
    + intros [[n ->] | [b ->]]; simpl; repeat split; reflexivity.
Qed.

End Replies.

(** The example of a refused upload: the server names a bad column. *)
Lemma upload_refused_witness :
  let st' :=
    CreateCampaign.submit JS.v8 Sample.apiBaseUrl Sample.filled
      Sample.bad_column in
  CreateCampaign.message st' = "Campaign creation failed: bad column"
  /\ incorporates (CreateCampaign.message st') "bad column"
  /\ CreateCampaign.messageType st' = "error"
  /\ CreateCampaign.loading st' = false
  /\ CreateCampaign.selectedFile st' = FileUpload.Chosen Sample.leads_csv
  /\ CreateCampaign.selectedAgent st' = "agent_42".
Proof.
  pose proof
    (upload_refused JS.v8 Sample.apiBaseUrl Sample.filled Sample.leads_csv
       {| JS.status := 400;
          JS.json :=
            JS.Fulfilled (JS.JObject [("detail", JS.JString "bad column")]) |}
       (JS.JObject [("detail", JS.JString "bad column")])
       eq_refl ltac:(discriminate) eq_refl eq_refl) as H.
  cbv zeta in H. destruct H as (Ht & _ & Hl & Hf & Ha & Hd & _).
  destruct (Hd (JS.JString "bad column") eq_refl) as [Hshown _].
  destruct (Hshown "bad column" eq_refl eq_refl) as [Hm Hin].
  cbv zeta. repeat split; assumption.
Defined.

(** C3 fails as stated for a refusal whose body is the JSON value [null]:
    the status is 400, the body decodes, it has no [detail] member, and yet
    the message shown is not built from the generic label: reading [detail]
    of [null] throws, and the text of that error is what the user sees. *)
Lemma upload_refused_null_body :
  let response : JS.Response (JS.value JS.v8) :=
    {| JS.status := 400; JS.json := JS.Fulfilled JS.JNull |} in
  let st' :=
    CreateCampaign.submit JS.v8 Sample.apiBaseUrl Sample.filled
      (JS.Fulfilled response) in
  JS.ok response = false
  /\ CreateCampaign.message st'
     = "An error occurred: Cannot read properties of null (reading 'detail')"
  /\ ~ incorporates (CreateCampaign.message st') "Unknown error"
  /\ ~ incorporates (CreateCampaign.message st') "Campaign creation failed".
Proof.
  cbv zeta. split; [reflexivity|]. split; [reflexivity|]. split.
  - apply not_incorporates. vm_compute. reflexivity.
  - apply not_incorporates. vm_compute. reflexivity.
Qed.

(** A [detail] member that is there but falsy is not shown either. *)
Example upload_refused_falsy_detail :
  CreateCampaign.message
    (CreateCampaign.submit JS.v8 Sample.apiBaseUrl Sample.filled
       (JS.Fulfilled
          {| JS.status := 422;
             JS.json :=
               JS.Fulfilled
                 (JS.JObject [("detail", @JS.JNumber JS.v8 0)]) |}))
  = "Campaign creation failed: Unknown error".
Proof. reflexivity. Qed.

(** The example of a success reply with an empty object for a body. *)
Lemma upload_settles_witness :
  let result :=
    CreateCampaign.handleCreateCampaign_settled JS.v8 Sample.created_empty_body
      (fst (CreateCampaign.handleCreateCampaign Sample.apiBaseUrl
              Sample.filled)) in
  fst result = inr tt
  /\ CreateCampaign.loading (snd result) = false
  /\ exists e,
       JS.name e = "TypeError"
       /\ CreateCampaign.message (snd result)
          = "An error occurred: " ++ JS.message e
       /\ CreateCampaign.messageType (snd result) = "error".
Proof.
  pose proof
    (upload_settles JS.v8 Sample.apiBaseUrl Sample.created_empty_body
       (fst (CreateCampaign.handleCreateCampaign Sample.apiBaseUrl
               Sample.filled))) as H.
  cbv zeta in H. destruct H as (Hend & Hloading & _ & _ & Hlacks & _).
  cbv zeta. split; [exact Hend|]. split; [exact Hloading|].
  destruct (Hlacks {| JS.status := 200;
                      JS.json := JS.Fulfilled (JS.JObject []) |}
              (JS.JObject []) eq_refl eq_refl eq_refl)
    as (e & Hname & Hm & Ht & _).
  - intros v Hv. left. simpl in Hv. injection Hv as <-. reflexivity.
  - exists e. repeat split; assumption.
Defined.

(** C9 fails as stated for a success reply whose body is
    [{"lead_ids": 5}]: the body has no [lead_ids] array, but reading
    [length] of a number raises nothing, so no exception is caught and the
    form reports a created campaign with the success styling. *)
Lemma upload_without_array_reported_created :
  let body : JS.value JS.v8 := JS.JObject [("lead_ids", @JS.JNumber JS.v8 5)] in
  let response := {| JS.status := 200; JS.json := JS.Fulfilled body |} in
  let st' :=
    CreateCampaign.submit JS.v8 Sample.apiBaseUrl Sample.filled
      (JS.Fulfilled response) in
  JS.ok response = true
  /\ (forall elements,
        JS.get_property body "lead_ids" <> inr (JS.JArray elements))
  /\ CreateCampaign.message st'
     = "Campaign created! Processed undefined leads."
  /\ CreateCampaign.messageType st' = "success"
  /\ CreateCampaign.messageType st' <> "error"
  /\ CreateCampaign.selectedFile st' = FileUpload.Null.
Proof.
  cbv zeta. split; [reflexivity|]. split.
  - intros elements H. discriminate H.
  - repeat split. discriminate.
Qed.

(** ** The campaign page: what holds of every page that can be reached *)

Section Reachable.
Context (host : JS.Host) (apiBaseUrl : string).

(** The roster handler writes the roster, its error and its loading flag,
    and nothing else. *)
Lemma fetchAgents_frame (reply : JS.Settled (JS.Response (list Agent.t)))
  (st : CreateCampaign.State) :
  let st' := snd (CreateCampaign.fetchAgents reply st) in
  CreateCampaign.selectedAgent st' = CreateCampaign.selectedAgent st
  /\ CreateCampaign.selectedFile st' = CreateCampaign.selectedFile st
  /\ CreateCampaign.loading st' = CreateCampaign.loading st
  /\ CreateCampaign.message st' = CreateCampaign.message st
  /\ CreateCampaign.messageType st' = CreateCampaign.messageType st
  /\ CreateCampaign.agentLoading st' = false.
Proof.
  cbv zeta.
  unfold CreateCampaign.fetchAgents, try_catch_finally, bind, await, set,
    ret, throw.
  destruct reply as [response | e]; simpl.
  - destruct (JS.ok response); simpl.
    + destruct (JS.json response) as [data | e]; simpl;
        repeat split; reflexivity.
    + repeat split; reflexivity.
  - repeat split; reflexivity.
Qed.

(** The click handler writes the message, its type and the loading flag. *)
Lemma handleCreateCampaign_frame (st : CreateCampaign.State) :
  let st' := fst (CreateCampaign.handleCreateCampaign apiBaseUrl st) in
  CreateCampaign.selectedAgent st' = CreateCampaign.selectedAgent st
  /\ CreateCampaign.selectedFile st' = CreateCampaign.selectedFile st.
Proof.
  cbv zeta. unfold CreateCampaign.handleCreateCampaign.
  destruct (CreateCampaign.selectedFile st) eqn:Hfile; simpl;
    try (split; [reflexivity | exact Hfile]).
  destruct (CreateCampaign.selectedAgent st =? ""); simpl;
    (split; [reflexivity | exact Hfile]).
Qed.

(** The button is enabled exactly when a file and an agent are selected
    and the loading flag is down. *)
Lemma button_enabled (st : CreateCampaign.State) :
  CreateCampaign.disabled
    (CreateCampaign.button (CreateCampaign.CreateCampaign st)) = false
  <-> FileUpload.truthy (CreateCampaign.selectedFile st) = true
      /\ CreateCampaign.selectedAgent st <> ""
      /\ CreateCampaign.loading st = false.
Proof.
  unfold CreateCampaign.CreateCampaign. simpl.
  rewrite !orb_false_iff, negb_false_iff, String.eqb_neq. tauto.
Qed.

Lemma step_flag_counts_uploads (p p' : Page.t) (ev : Page.Event host) :
  Page.step host apiBaseUrl p ev = Some p' ->
  Page.flag_counts_uploads p -> Page.flag_counts_uploads p'.
Proof.
  unfold Page.flag_counts_uploads.
  destruct ev as [reply | files | target | | reply]; cbn [Page.step];
    intros Hstep Hinv.
  - destruct (Page.agents_pending p); [|discriminate Hstep].
    injection Hstep as <-. simpl.
    destruct (fetchAgents_frame reply (Page.state p))
      as (_ & _ & Hloading & _).
    rewrite Hloading. exact Hinv.
  - injection Hstep as <-. exact Hinv.
  - destruct (Page.offered _ _); [|discriminate Hstep].
    injection Hstep as <-. exact Hinv.
  - destruct (CreateCampaign.disabled _) eqn:Hdisabled;
      [discriminate Hstep|].
    apply button_enabled in Hdisabled.
    destruct Hdisabled as (Hfile & Hagent & Hloading).
    destruct (CreateCampaign.selectedFile (Page.state p)) as [| |file]
      eqn:Hsel; try discriminate Hfile.
    rewrite (handleCreateCampaign_proceeds apiBaseUrl (Page.state p) file
               Hsel Hagent) in Hstep.
    injection Hstep as <-. simpl.
    rewrite Hloading in Hinv. rewrite length_app, Hinv. reflexivity.
  - destruct (Page.uploads p) as [|request rest] eqn:Huploads;
      [discriminate Hstep|].
    injection Hstep as <-. simpl.
    destruct (settled_frame host reply (Page.state p)) as (_ & Hloading & _).
    rewrite Hloading.
    simpl in Hinv. destruct (CreateCampaign.loading (Page.state p));
      [|discriminate Hinv].
    injection Hinv as Hrest. exact Hrest.
Qed.

Lemma run_flag_counts_uploads (events : list (Page.Event host))
  (p p' : Page.t) :
  Page.run host apiBaseUrl p events = Some p' ->
  Page.flag_counts_uploads p -> Page.flag_counts_uploads p'.
Proof.
  revert p. induction events as [|ev events IH]; simpl; intros p Hrun Hinv.
  - injection Hrun as <-. exact Hinv.
  - destruct (Page.step host apiBaseUrl p ev) as [p1|] eqn:Hstep;
      [|discriminate Hrun].
    apply (IH p1 Hrun).
    exact (step_flag_counts_uploads p p1 ev Hstep Hinv).
Qed.

(** C1: on every page that can be reached the submit button is enabled
    exactly when a file is selected, an agent is selected and no upload is
    in flight; that is, it is disabled exactly when the file is unset, the
    agent is unset, or an upload is in flight.  The loading flag, which the
    button reads, is up exactly while an upload is in flight, and there is
    never more than one. *)
Theorem submit_enabled_iff (p : Page.t) :
  Page.reachable host apiBaseUrl p ->
  let button := CreateCampaign.button
                  (CreateCampaign.CreateCampaign (Page.state p)) in
  (CreateCampaign.disabled button = false
   <-> FileUpload.truthy (CreateCampaign.selectedFile (Page.state p)) = true
       /\ CreateCampaign.selectedAgent (Page.state p) <> ""
       /\ Page.in_flight p = false)
  /\ (CreateCampaign.disabled button = true
      <-> FileUpload.truthy (CreateCampaign.selectedFile (Page.state p))
          = false
          \/ CreateCampaign.selectedAgent (Page.state p) = ""
          \/ Page.in_flight p = true)
  /\ (Page.in_flight p = true
      <-> CreateCampaign.loading (Page.state p) = true)
  /\ List.length (Page.uploads p) <= 1.
Proof.
  intros [events Hrun] button. subst button.
  assert (Hinv : Page.flag_counts_uploads p).
  { apply (run_flag_counts_uploads events Page.mounted p Hrun).
    reflexivity. }
  unfold Page.flag_counts_uploads in Hinv.
  assert (Hflight : Page.in_flight p = CreateCampaign.loading (Page.state p)).
  { unfold Page.in_flight.
    destruct (Page.uploads p), (CreateCampaign.loading (Page.state p));
      simpl in Hinv; try discriminate Hinv; reflexivity. }
  split; [|split; [|split]].
  - rewrite Hflight. apply button_enabled.
  - rewrite Hflight. unfold CreateCampaign.CreateCampaign. simpl.
    rewrite !orb_true_iff, negb_true_iff, String.eqb_eq. tauto.
  - rewrite Hflight. reflexivity.
  - rewrite Hinv. destruct (CreateCampaign.loading (Page.state p)); lia.
Qed.

End Reachable.

(** A session that ends with an upload in flight: the button is disabled
    although the file and the agent are both selected. *)
Lemma submit_enabled_iff_witness :
  Page.reachable JS.v8 Sample.apiBaseUrl Sample.submitting
  /\ Page.in_flight Sample.submitting = true
  /\ (CreateCampaign.disabled
        (CreateCampaign.button
           (CreateCampaign.CreateCampaign (Page.state Sample.submitting)))
      = false
      <-> FileUpload.truthy
            (CreateCampaign.selectedFile (Page.state Sample.submitting))
          = true
          /\ CreateCampaign.selectedAgent (Page.state Sample.submitting) <> ""
          /\ Page.in_flight Sample.submitting = false).
Proof.
  assert (Hreach : Page.reachable JS.v8 Sample.apiBaseUrl Sample.submitting).
  { exists Sample.session. reflexivity. }
  split; [exact Hreach|]. split; [reflexivity|].
  exact (proj1 (submit_enabled_iff JS.v8 Sample.apiBaseUrl Sample.submitting
                  Hreach)).
Defined.

(** ** The campaign page: the agent selection is the user's *)

Section Selection.
Context (host : JS.Host) (apiBaseUrl : string).

Lemma step_keeps_agent (p p' : Page.t) (ev : Page.Event host) :
  Page.step host apiBaseUrl p ev = Some p' ->
  Page.is_agent_choice ev = false ->
  CreateCampaign.selectedAgent (Page.state p')
  = CreateCampaign.selectedAgent (Page.state p).
Proof.
  destruct ev as [reply | files | target | | reply]; cbn [Page.step];
    intros Hstep Hchoice.
  - destruct (Page.agents_pending p); [|discriminate Hstep].
    injection Hstep as <-.
    apply (fetchAgents_frame reply (Page.state p)).
  - injection Hstep as <-. reflexivity.
  - discriminate Hchoice.
  - destruct (CreateCampaign.disabled _); [discriminate Hstep|].
    pose proof (handleCreateCampaign_frame apiBaseUrl (Page.state p))
      as Hframe.
    destruct (CreateCampaign.handleCreateCampaign apiBaseUrl (Page.state p))
      as [st' suspension].
    injection Hstep as <-. apply Hframe.
  - destruct (Page.uploads p); [discriminate Hstep|].
    injection Hstep as <-.
    apply (settled_frame host reply (Page.state p)).
Qed.

(** C7: loading the roster never writes the agent selection, whatever the
    reply is, so after the load of a fresh form the selection is still
    empty, also when the roster holds exactly one agent; and on the running
    page the selection stays empty through any sequence of events in which
    the user makes no choice in the selection control. *)
Theorem agent_load_keeps_selection :
  (forall reply st,
     CreateCampaign.selectedAgent (snd (CreateCampaign.fetchAgents reply st))
     = CreateCampaign.selectedAgent st)
  /\ (forall status agent,
        let st' :=
          snd (CreateCampaign.fetchAgents
                 (JS.Fulfilled
                    {| JS.status := status; JS.json := JS.Fulfilled [agent] |})
                 CreateCampaign.initial) in
        CreateCampaign.selectedAgent st' = ""
        /\ CreateCampaign.agentLoading st' = false)
  /\ (forall (events : list (Page.Event host)) p,
        Page.run host apiBaseUrl Page.mounted events = Some p ->
        existsb Page.is_agent_choice events = false ->
        CreateCampaign.selectedAgent (Page.state p) = "").
Proof.
  split; [|split].
  - intros reply st. apply (fetchAgents_frame reply st).
  - intros status agent. cbv zeta. split.
    + rewrite (proj1 (fetchAgents_frame _ _)). reflexivity.
    + apply (fetchAgents_frame _ CreateCampaign.initial).
  - intros events.
    assert (Hgen : forall start p,
      Page.run host apiBaseUrl start events = Some p ->
      existsb Page.is_agent_choice events = false ->
      CreateCampaign.selectedAgent (Page.state p)
      = CreateCampaign.selectedAgent (Page.state start)).
    { induction events as [|ev events IH]; simpl; intros start p Hrun Hnone.
      - injection Hrun as <-. reflexivity.
      - apply orb_false_iff in Hnone. destruct Hnone as [Hev Hrest].
        destruct (Page.step host apiBaseUrl start ev) as [p1|] eqn:Hstep;
          [|discriminate Hrun].
        rewrite (IH p1 p Hrun Hrest).
        exact (step_keeps_agent start p1 ev Hstep Hev). }
    intros p Hrun Hnone. rewrite (Hgen Page.mounted p Hrun Hnone).
    reflexivity.
Qed.

End Selection.

(** A roster of one agent arrives and the user picks a file: no agent is
    selected. *)
Lemma agent_load_keeps_selection_witness :
  exists p,
    Page.run JS.v8 Sample.apiBaseUrl Page.mounted
      [Page.AgentsSettled Sample.roster_of_one;
       Page.FileChange [Sample.leads_csv]]
    = Some p
    /\ CreateCampaign.agents (Page.state p) = [Sample.lone_agent]
    /\ CreateCampaign.selectedAgent (Page.state p) = "".
Proof.
  eexists. split; [reflexivity|]. split; [reflexivity|].
  exact (proj2 (proj2 (agent_load_keeps_selection JS.v8 Sample.apiBaseUrl))
           [Page.AgentsSettled Sample.roster_of_one;
            Page.FileChange [Sample.leads_csv]]
           _ eq_refl eq_refl).
Defined.

(** * Further properties of the components *)

(** ** Navigation by the sidebar *)

Lemma click_sections (activeSection : string) (i : nat) (next : string) :
  Navigation.click activeSection i = Some next ->
  next = "dashboard" \/ next = "create-campaign".
Proof.
  unfold Navigation.click.
  destruct i as [|[|i]]; simpl; intros H.
  - injection H as <-. left. reflexivity.
  - injection H as <-. right. reflexivity.
  - destruct i; discriminate H.
Qed.

Lemma run_sections (clicks : list nat) (start activeSection : string) :
  start = "dashboard" \/ start = "create-campaign" ->
  Navigation.run start clicks = Some activeSection ->
  activeSection = "dashboard" \/ activeSection = "create-campaign".
Proof.
  revert start. induction clicks as [|i clicks IH]; simpl;
    intros start Hstart H.
  - injection H as <-. exact Hstart.
  - destruct (Navigation.click start i) as [next|] eqn:Hclick;
      [|discriminate H].
    apply (IH next (click_sections start i next Hclick) H).
Qed.

(** X1: whatever buttons of the sidebar are clicked, starting from the
    section the application opens with, the active section is one of the
    two named ones, so the fallback branch of the content switch never
    runs; exactly one button is highlighted, and it is the one whose
    section is shown. *)
Theorem navigation_closed (clicks : list nat) (activeSection : string) :
  Navigation.run App.initial_activeSection clicks = Some activeSection ->
  (activeSection = "dashboard" \/ activeSection = "create-campaign")
  /\ exists button,
       filter Sidebar.highlighted (Sidebar.Sidebar activeSection) = [button]
       /\ Sidebar.target button = activeSection
       /\ (Sidebar.caption button = "Dashboard"
           /\ App.renderContent activeSection
              = App.Dashboard App.API_BASE_URL
           \/ Sidebar.caption button = "Create Campaign"
              /\ App.renderContent activeSection
                 = App.CreateCampaign App.API_BASE_URL).
Proof.
  intros Hrun.
  assert (Hnamed : activeSection = "dashboard"
                   \/ activeSection = "create-campaign").
  { apply (run_sections clicks App.initial_activeSection);
      [left; reflexivity | exact Hrun]. }
  split; [exact Hnamed|].
  destruct Hnamed as [-> | ->]; eexists; (split; [reflexivity|]);
    (split; [reflexivity|]).
  - left. split; reflexivity.
  - right. split; reflexivity.
Qed.

(** Two clicks: to the campaign form and back. *)
Lemma navigation_closed_witness :
  Navigation.run App.initial_activeSection [1; 0] = Some "dashboard"
  /\ exists button,
       filter Sidebar.highlighted (Sidebar.Sidebar "dashboard") = [button]
       /\ Sidebar.target button = "dashboard".
Proof.
  split; [reflexivity|].
  destruct (navigation_closed [1; 0] "dashboard" eq_refl)
    as (_ & button & Hfilter & Htarget & _).
  exists button. split; assumption.
Defined.

(** ** What the running campaign page keeps *)

Section Kept.
Context (host : JS.Host) (apiBaseUrl : string).

(** The two states the roster handler can leave. *)
Lemma fetchAgents_cases (reply : JS.Settled (JS.Response (list Agent.t)))
  (st : CreateCampaign.State) :
  (exists data,
     snd (CreateCampaign.fetchAgents reply st)
     = CreateCampaign.setAgentLoading false
         (CreateCampaign.setAgents data st))
  \/ (exists text,
        snd (CreateCampaign.fetchAgents reply st)
        = CreateCampaign.setAgentLoading false
            (CreateCampaign.setAgentError text st)).
Proof.
  unfold CreateCampaign.fetchAgents, try_catch_finally, bind, await, set,
    ret, throw.
  destruct reply as [response | e]; simpl.
  - destruct (JS.ok response); simpl.
    + destruct (JS.json response) as [data | e]; simpl.
      * left. exists data. reflexivity.
      * right. eexists. reflexivity.
    + right. eexists. reflexivity.
  - right. eexists. reflexivity.
Qed.

(** The two states the upload handler can leave. *)
Lemma settled_cases (reply : JS.Settled (JS.Response (JS.value host)))
  (st : CreateCampaign.State) :
  exists text,
    text <> ""
    /\ (snd (CreateCampaign.handleCreateCampaign_settled host reply st)
        = CreateCampaign.setLoading false
            (CreateCampaign.setMessageType "error"
               (CreateCampaign.setMessage text st))
        \/ snd (CreateCampaign.handleCreateCampaign_settled host reply st)
           = CreateCampaign.setLoading false
               (CreateCampaign.setSelectedFile FileUpload.Null
                  (CreateCampaign.setMessageType "success"
                     (CreateCampaign.setMessage text st)))).
Proof.
  assert (Hcaught : forall e,
    CreateCampaign.handleCreateCampaign_settled host reply st
    = (inr tt,
       CreateCampaign.setLoading false
         (CreateCampaign.setMessageType "error"
            (CreateCampaign.setMessage
               ("An error occurred: " ++ JS.message e) st))) ->
    exists text,
      text <> ""
      /\ (snd (CreateCampaign.handleCreateCampaign_settled host reply st)
          = CreateCampaign.setLoading false
              (CreateCampaign.setMessageType "error"
                 (CreateCampaign.setMessage text st))
          \/ snd (CreateCampaign.handleCreateCampaign_settled host reply st)
             = CreateCampaign.setLoading false
                 (CreateCampaign.setSelectedFile FileUpload.Null
                    (CreateCampaign.setMessageType "success"
                       (CreateCampaign.setMessage text st))))).
  { intros e ->. eexists. split; [|left; reflexivity]. discriminate. }
  destruct reply as [response | e].
  2: { apply (Hcaught e). apply settled_fetch_rejected. }
  destruct (JS.json response) as [data | e] eqn:Hjson.
  2: { apply (Hcaught e). apply settled_json_rejected. exact Hjson. }
  destruct (JS.ok response) eqn:Hok.
  - destruct (JS.get_property data "lead_ids") as [e | lead_ids] eqn:Hids.
    + apply (Hcaught e).
      apply (settled_created_throws host response data e st Hok Hjson).
      left. exact Hids.
    + destruct (JS.length_text lead_ids) as [e | count] eqn:Hcount.
      * apply (Hcaught e).
        apply (settled_created_throws host response data e st Hok Hjson).
        right. exists lead_ids. split; assumption.
      * rewrite (settled_created host response data lead_ids count st
                   Hok Hjson Hids Hcount).
        eexists. split; [|right; reflexivity]. discriminate.
  - destruct (JS.get_property data "detail") as [e | detail] eqn:Hdetail.
    + apply (Hcaught e).
      apply (settled_refused_throws host response data e st Hok Hjson).
      left. exact Hdetail.
    + destruct (JS.to_string (JS.or_else detail (JS.JString "Unknown error")))
        as [e | shown] eqn:Hshown.
      * apply (Hcaught e).
        apply (settled_refused_throws host response data e st Hok Hjson).
        right. exists detail. split; assumption.
      * rewrite (settled_refused host response data detail shown st
                   Hok Hjson Hdetail Hshown).
        eexists. split; [|left; reflexivity]. discriminate.
Qed.

(** A value the selection control offers is the id of a loaded agent. *)
Lemma offered_loaded (st : CreateCampaign.State) (target_value : string) :
  Page.offered
    (CreateCampaign.agentSelect (CreateCampaign.CreateCampaign st))
    target_value = true ->
  In target_value (map Agent.id (CreateCampaign.agents st)).
Proof.
  unfold CreateCampaign.CreateCampaign, AgentSelect.AgentSelect. simpl.
  destruct (CreateCampaign.agentLoading st); [discriminate|].
  destruct (error_truthy (CreateCampaign.agentError st)); [discriminate|].
  destruct (List.length (CreateCampaign.agents st) =? 0)%nat;
    [discriminate|].
  simpl. intros H. apply existsb_exists in H.
  destruct H as (c & Hin & Hvalue).
  apply in_map_iff in Hin. destruct Hin as (agent & <- & Hagent).
  apply String.eqb_eq in Hvalue. simpl in Hvalue. subst target_value.
  apply in_map. exact Hagent.
Qed.

Lemma mounted_consistent :
  Consistent.roster apiBaseUrl Page.mounted
  /\ Consistent.outcome Page.mounted.
Proof.
  split.
  - unfold Consistent.roster. simpl.
    split; [reflexivity|]. split; [intros _; split; reflexivity|].
    split; [intros H; contradiction|].
    split; [left; reflexivity | constructor].
  - unfold Consistent.outcome. simpl.
    split; [tauto|]. split; [left; reflexivity | discriminate].
Qed.

Lemma step_roster (p p' : Page.t) (ev : Page.Event host) :
  Page.step host apiBaseUrl p ev = Some p' ->
  Consistent.roster apiBaseUrl p -> Consistent.roster apiBaseUrl p'.
Proof.
  unfold Consistent.roster. cbv zeta.
  destruct ev as [reply | files | target | | reply]; cbn [Page.step];
    intros Hstep (Hflag & Hpending & Herror & Hsel & Hsent).
  - destruct (Page.agents_pending p) eqn:Hp; [|discriminate Hstep].
    destruct (Hpending eq_refl) as [Hagents Hnone].
    assert (Hempty : CreateCampaign.selectedAgent (Page.state p) = "").
    { destruct Hsel as [H | H]; [exact H|].
      rewrite Hagents in H. contradiction. }
    assert (Huploads : Page.uploads p = []).
    { destruct (Page.uploads p) as [|request rest]; [reflexivity|].
      inversion Hsent as [|? ? (file & agent_id & _ & _ & Hin) _].
      rewrite Hagents in Hin. contradiction. }
    injection Hstep as <-. cbn [Page.state Page.agents_pending Page.uploads].
    rewrite Huploads.
    destruct (fetchAgents_cases reply (Page.state p))
      as [[data ->] | [text ->]]; simpl.
    + split; [reflexivity|]. split; [discriminate|].
      split; [intros _; exact Hnone|]. split; [left; exact Hempty|].
      constructor.
    + split; [reflexivity|]. split; [discriminate|].
      split; [intros H; rewrite Hagents in H; contradiction|].
      split; [left; exact Hempty | constructor].
  - injection Hstep as <-. simpl. tauto.
  - destruct (Page.offered _ _) eqn:Hoffered; [|discriminate Hstep].
    apply offered_loaded in Hoffered.
    injection Hstep as <-. simpl. tauto.
  - destruct (CreateCampaign.disabled _) eqn:Hdisabled;
      [discriminate Hstep|].
    apply button_enabled in Hdisabled.
    destruct Hdisabled as (Hfile & Hagent & Hloading).
    destruct (CreateCampaign.selectedFile (Page.state p)) as [| |file]
      eqn:Hchosen; try discriminate Hfile.
    rewrite (handleCreateCampaign_proceeds apiBaseUrl (Page.state p) file
               Hchosen Hagent) in Hstep.
    injection Hstep as <-. simpl.
    do 4 (split; [tauto|]).
    apply Forall_app. split; [exact Hsent|].
    constructor; [|constructor].
    exists file, (CreateCampaign.selectedAgent (Page.state p)).
    split; [reflexivity|]. split; [exact Hagent|].
    destruct Hsel as [H | H]; [contradiction | exact H].
  - destruct (Page.uploads p) as [|request rest] eqn:Huploads;
      [discriminate Hstep|].
    injection Hstep as <-. cbn [Page.state Page.agents_pending Page.uploads].
    inversion Hsent as [|? ? _ Hrest].
    destruct (settled_cases reply (Page.state p))
      as (text & _ & [-> | ->]); simpl; tauto.
Qed.

Lemma step_outcome (p p' : Page.t) (ev : Page.Event host) :
  Page.step host apiBaseUrl p ev = Some p' ->
  Consistent.outcome p -> Consistent.outcome p'.
Proof.
  unfold Consistent.outcome. cbv zeta.
  destruct ev as [reply | files | target | | reply]; cbn [Page.step];
    intros Hstep (Hboth & Htype & Hflight).
  - destruct (Page.agents_pending p); [|discriminate Hstep].
    injection Hstep as <-. cbn [Page.state].
    destruct (fetchAgents_cases reply (Page.state p))
      as [[data ->] | [text ->]]; simpl; tauto.
  - injection Hstep as <-. simpl. tauto.
  - destruct (Page.offered _ _); [|discriminate Hstep].
    injection Hstep as <-. simpl. tauto.
  - destruct (CreateCampaign.disabled _) eqn:Hdisabled;
      [discriminate Hstep|].
    apply button_enabled in Hdisabled.
    destruct Hdisabled as (Hfile & Hagent & Hloading).
    destruct (CreateCampaign.selectedFile (Page.state p)) as [| |file]
      eqn:Hchosen; try discriminate Hfile.
    rewrite (handleCreateCampaign_proceeds apiBaseUrl (Page.state p) file
               Hchosen Hagent) in Hstep.
    injection Hstep as <-. simpl. tauto.
  - destruct (Page.uploads p) as [|request rest]; [discriminate Hstep|].
    injection Hstep as <-. cbn [Page.state].
    destruct (settled_cases reply (Page.state p))
      as (text & Htext & [-> | ->]); simpl.
    + split; [split; [contradiction | discriminate]|].
      split; [right; right; reflexivity | discriminate].
    + split; [split; [contradiction | discriminate]|].
      split; [right; left; reflexivity | discriminate].
Qed.

Lemma reachable_consistent (p : Page.t) :
  Page.reachable host apiBaseUrl p ->
  Consistent.roster apiBaseUrl p /\ Consistent.outcome p.
Proof.
  intros [events Hrun].
  assert (Hgen : forall start,
    Consistent.roster apiBaseUrl start /\ Consistent.outcome start ->
    Page.run host apiBaseUrl start events = Some p ->
    Consistent.roster apiBaseUrl p /\ Consistent.outcome p).
  { clear Hrun. induction events as [|ev events IH]; simpl;
      intros start Hstart H.
    - injection H as <-. exact Hstart.
    - destruct (Page.step host apiBaseUrl start ev) as [next|] eqn:Hstep;
        [|discriminate H].
      apply (IH next); [|exact H]. destruct Hstart as [Hr Ho]. split.
      + exact (step_roster start next ev Hstep Hr).
      + exact (step_outcome start next ev Hstep Ho). }
  apply (Hgen Page.mounted mounted_consistent Hrun).
Qed.

End Kept.

(** ** Properties of every page that can be reached *)

Section Everywhere.
Context (host : JS.Host) (apiBaseUrl : string).

(** X2: on every page that can be reached, the agent selection is empty or
    the id of an agent of the loaded roster, and every upload on its way is
    a POST to the upload address whose body holds exactly the fields [file]
    and [agent_id], the agent id being non-empty and the id of an agent of
    the loaded roster. *)
Theorem uploads_built_by_form (p : Page.t) :
  Page.reachable host apiBaseUrl p ->
  let ids := map Agent.id (CreateCampaign.agents (Page.state p)) in
  (CreateCampaign.selectedAgent (Page.state p) = ""
   \/ In (CreateCampaign.selectedAgent (Page.state p)) ids)
  /\ Forall (Consistent.sent_by_form apiBaseUrl ids) (Page.uploads p).
Proof.
  intros Hreach. cbv zeta.
  destruct (reachable_consistent host apiBaseUrl p Hreach) as [Hroster _].
  destruct Hroster as (_ & _ & _ & Hsel & Hsent).
  split; [exact Hsel | exact Hsent].
Qed.

(** X3: the button and the guards of the click handler agree.  In a state
    where the button is enabled the handler passes both guards and sends a
    request; in a state where a guard fires the button is disabled, so the
    two validation messages cannot be brought up by a click. *)
Theorem click_passes_guards (st : CreateCampaign.State) :
  let button := CreateCampaign.button (CreateCampaign.CreateCampaign st) in
  (CreateCampaign.disabled button = false ->
   exists request,
     CreateCampaign.handleCreateCampaign apiBaseUrl st
     = (CreateCampaign.setMessageType ""
          (CreateCampaign.setMessage "" (CreateCampaign.setLoading true st)),
        CreateCampaign.Awaiting request))
  /\ (snd (CreateCampaign.handleCreateCampaign apiBaseUrl st)
      = CreateCampaign.Returned ->
      CreateCampaign.disabled button = true
      /\ CreateCampaign.messageType
           (fst (CreateCampaign.handleCreateCampaign apiBaseUrl st))
         = "error"
      /\ (CreateCampaign.message
            (fst (CreateCampaign.handleCreateCampaign apiBaseUrl st))
          = "Please select a CSV file to upload."
          \/ CreateCampaign.message
               (fst (CreateCampaign.handleCreateCampaign apiBaseUrl st))
             = "Please select an agent for the campaign."))
  /\ (forall p p',
        Page.state p = st ->
        Page.step host apiBaseUrl p Page.Click = Some p' ->
        exists request,
          Page.uploads p' = (Page.uploads p ++ [request])%list
          /\ CreateCampaign.loading (Page.state p') = true
          /\ CreateCampaign.message (Page.state p') = "").
Proof.
  cbv zeta. split; [|split].
  - intros Henabled. apply button_enabled in Henabled.
    destruct Henabled as (Hfile & Hagent & _).
    destruct (CreateCampaign.selectedFile st) as [| |file] eqn:Hchosen;
      try discriminate Hfile.
    eexists. apply (handleCreateCampaign_proceeds apiBaseUrl st file
                      Hchosen Hagent).
  - unfold CreateCampaign.handleCreateCampaign,
      CreateCampaign.CreateCampaign.
    destruct (CreateCampaign.selectedFile st); simpl.
    + intros _. split; [reflexivity|]. split; [reflexivity|].
      left. reflexivity.
    + intros _. split; [reflexivity|]. split; [reflexivity|].
      left. reflexivity.
    + destruct (CreateCampaign.selectedAgent st =? ""); simpl.
      * intros _. split; [reflexivity|]. split; [reflexivity|].
        right. reflexivity.
      * discriminate.
  - intros p p' <-. cbn [Page.step].
    destruct (CreateCampaign.disabled _) eqn:Hdisabled; [discriminate|].
    apply button_enabled in Hdisabled.
    destruct Hdisabled as (Hfile & Hagent & _).
    destruct (CreateCampaign.selectedFile (Page.state p)) as [| |file]
      eqn:Hchosen; try discriminate Hfile.
    rewrite (handleCreateCampaign_proceeds apiBaseUrl (Page.state p) file
               Hchosen Hagent).
    intros H. injection H as <-. eexists. simpl.
    split; [reflexivity|]. split; reflexivity.
Qed.

(** X4: on every page that can be reached the alert under the button is
    absent exactly when no outcome type is set, it is absent while an
    upload is in flight, and when it is there it shows the message in green
    with the check icon for the type ['success'] and in red with the cross
    icon for the type ['error']; no other type occurs. *)
Theorem alert_follows_outcome (p : Page.t) :
  Page.reachable host apiBaseUrl p ->
  let st := Page.state p in
  let alert := CreateCampaign.alert (CreateCampaign.CreateCampaign st) in
  (alert = None <-> CreateCampaign.messageType st = "")
  /\ (Page.in_flight p = true -> alert = None)
  /\ (forall shown,
        alert = Some shown ->
        AlertMessage.text shown = CreateCampaign.message st
        /\ (CreateCampaign.messageType st = "success"
            /\ AlertMessage.bgColor shown = "bg-green-100"
            /\ AlertMessage.textColor shown = "text-green-800"
            /\ AlertMessage.Icon shown = AlertMessage.CircleCheck
            \/ CreateCampaign.messageType st = "error"
               /\ AlertMessage.bgColor shown = "bg-red-100"
               /\ AlertMessage.textColor shown = "text-red-800"
               /\ AlertMessage.Icon shown = AlertMessage.XCircle)).
Proof.
  intros Hreach. cbv zeta.
  destruct (reachable_consistent host apiBaseUrl p Hreach)
    as [_ (Hboth & Htype & Hflight)].
  assert (Hcount : Page.flag_counts_uploads p).
  { destruct Hreach as [events Hrun].
    apply (run_flag_counts_uploads host apiBaseUrl events Page.mounted p Hrun).
    reflexivity. }
  unfold CreateCampaign.CreateCampaign. simpl.
  split; [|split].
  - destruct (String.eqb_spec (CreateCampaign.message (Page.state p)) "")
      as [Hm | Hm].
    + split; [intros _; apply Hboth; exact Hm | reflexivity].
    + split; [discriminate | intros H; apply Hboth in H; contradiction].
  - intros Hin. unfold Page.in_flight, Page.flag_counts_uploads in *.
    destruct (Page.uploads p); [discriminate Hin|].
    destruct (CreateCampaign.loading (Page.state p)) eqn:Hloading;
      [|discriminate Hcount].
    rewrite (Hflight eq_refl). reflexivity.
  - intros shown.
    destruct (String.eqb_spec (CreateCampaign.message (Page.state p)) "")
      as [Hm | Hm]; [discriminate|].
    intros H. injection H as <-. split; [reflexivity|].
    destruct Htype as [Ht | [Ht | Ht]].
    + apply Hboth in Ht. contradiction.
    + left. rewrite Ht. repeat split; reflexivity.
    + right. rewrite Ht. repeat split; reflexivity.
Qed.

(** X5: a roster request that is rejected, refused, undecodable or
    answered with an empty roster leaves the roster empty; and on every
    page that can be reached with an empty roster, so also while the roster
    is still loading, no agent is selected, no upload is on its way, the
    button is disabled and a click is not delivered: without a loaded agent
    the form never sends anything. *)
Theorem no_roster_no_upload :
  (forall reply st,
     (forall response data,
        reply = JS.Fulfilled response -> JS.ok response = true ->
        JS.json response = JS.Fulfilled data -> data = []) ->
     CreateCampaign.agents st = [] ->
     CreateCampaign.agents (snd (CreateCampaign.fetchAgents reply st)) = [])
  /\ (forall p,
        Page.reachable host apiBaseUrl p ->
        CreateCampaign.agents (Page.state p) = [] ->
        CreateCampaign.selectedAgent (Page.state p) = ""
        /\ Page.uploads p = []
        /\ CreateCampaign.loading (Page.state p) = false
        /\ CreateCampaign.disabled
             (CreateCampaign.button
                (CreateCampaign.CreateCampaign (Page.state p))) = true
        /\ Page.step host apiBaseUrl p Page.Click = None).
Proof.
  split.
  - intros reply st Hnone Hst.
    unfold CreateCampaign.fetchAgents, try_catch_finally, bind, await, set,
      ret, throw.
    destruct reply as [response | e]; simpl; [|exact Hst].
    destruct (JS.ok response) eqn:Hok; simpl; [|exact Hst].
    destruct (JS.json response) as [data | e] eqn:Hjson; simpl;
      [|exact Hst].
    apply (Hnone response data eq_refl Hok Hjson).
  - intros p Hreach Hagents.
    destruct (reachable_consistent host apiBaseUrl p Hreach)
      as [(_ & _ & _ & Hsel & Hsent) _].
    cbv zeta in Hsel, Hsent. rewrite Hagents in Hsel, Hsent.
    assert (Hempty : CreateCampaign.selectedAgent (Page.state p) = "").
    { destruct Hsel as [H | H]; [exact H | contradiction]. }
    assert (Huploads : Page.uploads p = []).
    { destruct (Page.uploads p) as [|request rest]; [reflexivity|].
      inversion Hsent as [|? ? (file & agent_id & _ & _ & Hin) _].
      contradiction. }
    assert (Hcount : Page.flag_counts_uploads p).
    { destruct Hreach as [events Hrun].
      apply (run_flag_counts_uploads host apiBaseUrl events Page.mounted p
               Hrun).
      reflexivity. }
    unfold Page.flag_counts_uploads in Hcount. rewrite Huploads in Hcount.
    assert (Hdisabled :
      CreateCampaign.disabled
        (CreateCampaign.button (CreateCampaign.CreateCampaign (Page.state p)))
      = true).
    { unfold CreateCampaign.CreateCampaign. simpl. rewrite Hempty. simpl.
      rewrite orb_true_r. reflexivity. }
    split; [exact Hempty|]. split; [exact Huploads|]. split.
    + destruct (CreateCampaign.loading (Page.state p));
        [discriminate Hcount | reflexivity].
    + split; [exact Hdisabled|]. cbn [Page.step]. rewrite Hdisabled.
      reflexivity.
Qed.

End Everywhere.

(** ** The selection control on the running page *)

Section Control.
Context (host : JS.Host) (apiBaseUrl : string).

Lemma choice_values (agents : list Agent.t) :
  map AgentSelect.value (map AgentSelect.choice agents)
  = map Agent.id agents.
Proof.
  induction agents as [|agent agents IH]; simpl.
  - reflexivity.
  - rewrite IH. reflexivity.
Qed.

Lemma error_truthy_text (error : option string) :
  error_truthy error = true -> exists text, error = Some text /\ text <> "".
Proof.
  destruct error as [text|]; simpl; [|discriminate].
  intros H. exists text. split; [reflexivity|].
  apply String.eqb_neq. apply negb_true_iff. exact H.
Qed.

(** X6: on every page that can be reached, what stands in the place of
    the selection control tells how the roster request went.  The loading
    text shows only while the request is pending; the error text shows only
    after it failed, with no roster, and carries the error; the "no agents"
    text shows only for an empty roster; and the control itself shows only
    for a loaded roster, with one option per agent in order, its value
    being the selection, which is empty or one of the options. *)
Theorem selector_follows_roster (p : Page.t) :
  Page.reachable host apiBaseUrl p ->
  let st := Page.state p in
  match CreateCampaign.agentSelect (CreateCampaign.CreateCampaign st) with
  | AgentSelect.Loading _ => Page.agents_pending p = true
  | AgentSelect.Failed text =>
      Page.agents_pending p = false
      /\ CreateCampaign.agents st = []
      /\ exists e,
           CreateCampaign.agentError st = Some e
           /\ e <> "" /\ text = " Error: " ++ e
  | AgentSelect.NoAgents _ =>
      Page.agents_pending p = false /\ CreateCampaign.agents st = []
  | AgentSelect.Select value choices =>
      Page.agents_pending p = false
      /\ value = CreateCampaign.selectedAgent st
      /\ map AgentSelect.value choices
         = map Agent.id (CreateCampaign.agents st)
      /\ choices <> []
      /\ (value = "" \/ In value (map AgentSelect.value choices))
  end.
Proof.
  intros Hreach. cbv zeta.
  destruct (reachable_consistent host apiBaseUrl p Hreach)
    as [(Hflag & _ & Herror & Hsel & _) _].
  cbv zeta in Hsel.
  unfold CreateCampaign.CreateCampaign, AgentSelect.AgentSelect. simpl.
  rewrite Hflag. destruct (Page.agents_pending p); [reflexivity|].
  destruct (error_truthy (CreateCampaign.agentError (Page.state p)))
    eqn:Htruthy.
  - destruct (error_truthy_text _ Htruthy) as (e & He & Hne).
    split; [reflexivity|]. split.
    + destruct (CreateCampaign.agents (Page.state p)) as [|a l] eqn:Hagents;
        [reflexivity|].
      rewrite Herror in He; [discriminate He | discriminate].
    + exists e. rewrite He. repeat split; assumption.
  - destruct (CreateCampaign.agents (Page.state p)) as [|a l] eqn:Hagents;
      simpl.
    + split; reflexivity.
    + split; [reflexivity|]. split; [reflexivity|].
      split; [rewrite choice_values; reflexivity|].
      split; [discriminate|].
      rewrite choice_values. exact Hsel.
Qed.

End Control.

(** ** Submitting again *)

Section Again.
Context (host : JS.Host) (apiBaseUrl : string).


End Again.

(** ** The file picker *)

(** X8: a change of the file picker takes the first file of the event and
    ignores the rest; an event with no file, as when the dialog is
    cancelled, drops the selection there was, so the name line goes away,
    the button is disabled and a submit sends nothing.  Nothing but the
    file selection is written. *)
Theorem picker_takes_first (apiBaseUrl : string)
  (st : CreateCampaign.State) (target_files : list File.t) :
  let st' :=
    FileUpload.onFileChange CreateCampaign.setSelectedFile target_files st in
  let view := CreateCampaign.CreateCampaign st' in
  match target_files with
  | [] =>
      CreateCampaign.selectedFile st' = FileUpload.Undefined
      /\ CreateCampaign.fileUpload view = None
      /\ CreateCampaign.disabled (CreateCampaign.button view) = true
      /\ CreateCampaign.requests_of apiBaseUrl st' = []
  | file :: _ =>
      CreateCampaign.selectedFile st' = FileUpload.Chosen file
      /\ CreateCampaign.fileUpload view
         = Some ("Selected: " ++ File.name file)
      /\ (CreateCampaign.disabled (CreateCampaign.button view) = false
          <-> CreateCampaign.selectedAgent st <> ""
              /\ CreateCampaign.loading st = false)
  end
  /\ CreateCampaign.selectedAgent st' = CreateCampaign.selectedAgent st
  /\ CreateCampaign.message st' = CreateCampaign.message st
  /\ CreateCampaign.messageType st' = CreateCampaign.messageType st
  /\ CreateCampaign.loading st' = CreateCampaign.loading st
  /\ CreateCampaign.agents st' = CreateCampaign.agents st.
Proof.
  cbv zeta. split.
  - destruct target_files as [|file others];
      unfold FileUpload.onFileChange, CreateCampaign.requests_of,
        CreateCampaign.handleCreateCampaign, CreateCampaign.CreateCampaign;
      simpl.
    + repeat split.
    + split; [reflexivity|]. split; [reflexivity|].
      rewrite orb_false_iff, String.eqb_neq. reflexivity.
  - unfold FileUpload.onFileChange. simpl. repeat split.
Qed.

(** ** The roster view: failures, and the two loaders side by side *)

(** X9: once the roster request of the dashboard has settled the loading
    text is gone for good, whatever the reply.  A request that fails in
    transport (no response, or a success status with a body that cannot be
    decoded) shows "Error loading agents: " with the text of the error; but
    when that error has an empty text the error state counts as unset and
    the dashboard shows the empty roster message instead of an error. *)
Theorem dashboard_transport_failure :
  (forall reply text,
     Dashboard.Dashboard (Dashboard.loaded reply) <> Dashboard.Loading text)
  /\ (forall reply e,
        (reply = JS.Rejected e
         \/ exists response,
              reply = JS.Fulfilled response
              /\ JS.ok response = true
              /\ JS.json response = JS.Rejected e) ->
        Dashboard.error (Dashboard.loaded reply) = Some (JS.message e)
        /\ (JS.message e <> "" ->
            Dashboard.Dashboard (Dashboard.loaded reply)
            = Dashboard.Failed ("Error loading agents: " ++ JS.message e))
        /\ (JS.message e = "" ->
            Dashboard.Dashboard (Dashboard.loaded reply)
            = Dashboard.Page "Agent Dashboard"
                (Dashboard.EmptyState
                   "No agents found. Please ensure agents are configured in your backend."))).
Proof.
  split.
  - intros reply text.
    assert (Hloading : Dashboard.loading (Dashboard.loaded reply) = false).
    { unfold Dashboard.loaded, Dashboard.fetchAgents, try_catch_finally,
        bind, await, set, ret, throw.
      destruct reply as [response | e]; simpl; [|reflexivity].
      destruct (JS.ok response); simpl; [|reflexivity].
      destruct (JS.json response); reflexivity. }
    unfold Dashboard.Dashboard. rewrite Hloading.
    destruct (error_truthy _); discriminate.
  - intros reply e Hreply.
    assert (Hstate :
      Dashboard.loaded reply
      = {| Dashboard.agents := [];
           Dashboard.loading := false;
           Dashboard.error := Some (JS.message e) |}).
    { unfold Dashboard.loaded, Dashboard.fetchAgents, try_catch_finally,
        bind, await, set, ret, throw.
      destruct Hreply as [-> | (response & -> & Hok & Hjson)]; simpl.
      - reflexivity.
      - rewrite Hok. simpl. rewrite Hjson. reflexivity. }
    rewrite Hstate. unfold Dashboard.Dashboard. simpl.
    split; [reflexivity|]. split.
    + intros Hne. apply String.eqb_neq in Hne. rewrite Hne. reflexivity.
    + intros ->. reflexivity.
Qed.

(** X10: the dashboard and the campaign form load the roster in the same
    way: from the same reply both end with the same roster, the same error
    and the loading flag down, and what they show corresponds, the cards of
    the dashboard and the options of the selection control carrying the
    same keys in the same order. *)
Theorem loaders_agree (reply : JS.Settled (JS.Response (list Agent.t))) :
  let board := Dashboard.loaded reply in
  let form := snd (CreateCampaign.fetchAgents reply CreateCampaign.initial) in
  Dashboard.agents board = CreateCampaign.agents form
  /\ Dashboard.error board = CreateCampaign.agentError form
  /\ Dashboard.loading board = CreateCampaign.agentLoading form
  /\ match Dashboard.Dashboard board,
           CreateCampaign.agentSelect (CreateCampaign.CreateCampaign form)
     with
     | Dashboard.Failed shown, AgentSelect.Failed text =>
         exists e,
           shown = "Error loading agents: " ++ e /\ text = " Error: " ++ e
     | Dashboard.Page _ (Dashboard.EmptyState _), AgentSelect.NoAgents _ =>
         CreateCampaign.agents form = []
     | Dashboard.Page _ (Dashboard.Grid cards), AgentSelect.Select _ choices =>
         map fst cards = map AgentSelect.key choices
         /\ map fst cards = map Agent.id (CreateCampaign.agents form)
     | _, _ => False
     end.
Proof.
  cbv zeta.
  unfold Dashboard.loaded, Dashboard.fetchAgents, CreateCampaign.fetchAgents,
    try_catch_finally, bind, await, set, ret, throw.
  assert (Hkeys : forall agents : list Agent.t,
    map fst (map (fun agent =>
                    (Agent.id agent, AgentCard.AgentCard (Some agent)))
               agents)
    = map AgentSelect.key (map AgentSelect.choice agents)
    /\ map fst (map (fun agent =>
                       (Agent.id agent, AgentCard.AgentCard (Some agent)))
                  agents)
       = map Agent.id agents).
  { intros agents. rewrite !map_map. split; reflexivity. }
  assert (Hfailed : forall text,
    let board := {| Dashboard.agents := [];
                    Dashboard.loading := false;
                    Dashboard.error := Some text |} in
    let form :=
      CreateCampaign.setAgentLoading false
        (CreateCampaign.setAgentError text CreateCampaign.initial) in
    match Dashboard.Dashboard board,
          CreateCampaign.agentSelect (CreateCampaign.CreateCampaign form)
    with
    | Dashboard.Failed shown, AgentSelect.Failed text' =>
        exists e,
          shown = "Error loading agents: " ++ e /\ text' = " Error: " ++ e
    | Dashboard.Page _ (Dashboard.EmptyState _), AgentSelect.NoAgents _ =>
        CreateCampaign.agents form = []
    | Dashboard.Page _ (Dashboard.Grid cards), AgentSelect.Select _ choices =>
        map fst cards = map AgentSelect.key choices
        /\ map fst cards = map Agent.id (CreateCampaign.agents form)
    | _, _ => False
    end).
  { intros text. cbv zeta.
    unfold Dashboard.Dashboard, CreateCampaign.CreateCampaign,
      AgentSelect.AgentSelect. simpl.
    destruct (text =? ""); simpl.
    - reflexivity.
    - exists text. split; reflexivity. }
  destruct reply as [response | e]; simpl.
  - destruct (JS.ok response); simpl.
    + destruct (JS.json response) as [data | e]; simpl.
      * do 3 (split; [reflexivity|]).
        unfold Dashboard.Dashboard, CreateCampaign.CreateCampaign,
          AgentSelect.AgentSelect. simpl.
        destruct data as [|agent others]; simpl.
        -- reflexivity.
        -- apply (Hkeys (agent :: others)).
      * do 3 (split; [reflexivity|]). exact (Hfailed (JS.message e)).
    + do 3 (split; [reflexivity|]).
      exact (Hfailed
               ("HTTP error! status: " ++ decimal (JS.status response))).
  - do 3 (split; [reflexivity|]). exact (Hfailed (JS.message e)).
Qed.

(** ** A refusal whose detail is not a text *)

Section Detail.
Context (host : JS.Host) (apiBaseUrl : string).

(** An array of at least two elements prints its first element, a comma,
    and the rest. *)
Lemma to_string_array_cons (x y : JS.value host) (l : list (JS.value host)) :
  JS.to_string (JS.JArray (x :: y :: l))
  = match
      match x with
      | JS.JUndefined | JS.JNull => inr ""
      | _ => JS.to_string x
      end
    with
    | inl e => inl e
    | inr s =>
        match JS.to_string (JS.JArray (y :: l)) with
        | inl e => inl e
        | inr r => inr (s ++ "," ++ r)
        end
    end.
Proof. reflexivity. Qed.

Lemma to_string_objects (objects : list (list (string * JS.value host))) :
  Forall (fun members => JS.own_member "toString" members = None) objects ->
  JS.to_string (JS.JArray (map JS.JObject objects))
  = inr (String.concat "," (map (fun _ => "[object Object]") objects)).
Proof.
  induction objects as [|members objects IH]; intros Hplain.
  - reflexivity.
  - inversion Hplain as [|? ? Hmembers Hrest]; subst.
    specialize (IH Hrest).
    destruct objects as [|members' objects].
    + simpl. rewrite Hmembers. reflexivity.
    + cbn [map]. rewrite to_string_array_cons.
      cbn [map] in IH. rewrite IH.
      cbn [JS.to_string]. rewrite Hmembers. reflexivity.
Qed.

(** X11: a refusal whose [detail] is an object, or an array of objects as
    a validation error of the backend has it, is not shown in a readable
    form: with no [toString] member of their own, an object prints as
    "[object Object]" and the array as that text once per element, joined
    by commas, so that an empty array leaves nothing after the colon. *)
Theorem refusal_shows_objects (st : CreateCampaign.State) (file : File.t)
  (response : JS.Response (JS.value host)) (errorData : JS.value host) :
  CreateCampaign.selectedFile st = FileUpload.Chosen file ->
  CreateCampaign.selectedAgent st <> "" ->
  JS.ok response = false ->
  JS.json response = JS.Fulfilled errorData ->
  let st' :=
    CreateCampaign.submit host apiBaseUrl st (JS.Fulfilled response) in
  (forall members,
     JS.get_property errorData "detail" = inr (JS.JObject members) ->
     JS.own_member "toString" members = None ->
     CreateCampaign.message st'
     = "Campaign creation failed: [object Object]")
  /\ (forall objects,
        JS.get_property errorData "detail"
        = inr (JS.JArray (map JS.JObject objects)) ->
        Forall (fun members => JS.own_member "toString" members = None)
          objects ->
        CreateCampaign.message st'
        = "Campaign creation failed: "
          ++ String.concat "," (map (fun _ => "[object Object]") objects)).
Proof.
  intros Hfile Hagent Hok Hjson. cbv zeta.
  rewrite (submit_proceeds host apiBaseUrl st file _ Hfile Hagent).
  split.
  - intros members Hdetail Hplain.
    rewrite (settled_refused host response errorData (JS.JObject members)
               "[object Object]" _ Hok Hjson Hdetail).
    + reflexivity.
    + simpl. rewrite Hplain. reflexivity.
  - intros objects Hdetail Hplain.
    rewrite (settled_refused host response errorData
               (JS.JArray (map JS.JObject objects))
               (String.concat "," (map (fun _ => "[object Object]") objects))
               _ Hok Hjson Hdetail).
    + reflexivity.
    + unfold JS.or_else. cbn [JS.truthy].
      apply to_string_objects. exact Hplain.
Qed.

End Detail.

(** ** The outcome stays until the next submit *)

Section Stays.
Context (host : JS.Host) (apiBaseUrl : string).

Lemma step_keeps_outcome (p p' : Page.t) (ev : Page.Event host) :
  Page.step host apiBaseUrl p ev = Some p' ->
  match ev with
  | Page.Click | Page.UploadSettled _ => false
  | _ => true
  end = true ->
  CreateCampaign.message (Page.state p')
  = CreateCampaign.message (Page.state p)
  /\ CreateCampaign.messageType (Page.state p')
     = CreateCampaign.messageType (Page.state p)
  /\ Page.uploads p' = Page.uploads p.
Proof.
  destruct ev as [reply | files | target | | reply]; cbn [Page.step];
    intros Hstep Hquiet; try discriminate Hquiet.
  - destruct (Page.agents_pending p); [|discriminate Hstep].
    injection Hstep as <-. cbn [Page.state Page.uploads].
    destruct (fetchAgents_cases reply (Page.state p))
      as [[data ->] | [text ->]]; repeat split.
  - injection Hstep as <-. repeat split.
  - destruct (Page.offered _ _); [|discriminate Hstep].
    injection Hstep as <-. repeat split.
Qed.

(** X12: the outcome of a submit is never dismissed on its own: through
    any sequence of events that holds neither a click on the button nor the
    reply to an upload (the roster arriving, files and agents being picked)
    the message, its type and the alert that shows them stay as they are,
    and no upload is sent or taken away. *)
Theorem outcome_stays (events : list (Page.Event host)) (p p' : Page.t) :
  Page.run host apiBaseUrl p events = Some p' ->
  forallb (fun ev => match ev with
                     | Page.Click | Page.UploadSettled _ => false
                     | _ => true
                     end) events = true ->
  CreateCampaign.message (Page.state p')
  = CreateCampaign.message (Page.state p)
  /\ CreateCampaign.messageType (Page.state p')
     = CreateCampaign.messageType (Page.state p)
  /\ CreateCampaign.alert (CreateCampaign.CreateCampaign (Page.state p'))
     = CreateCampaign.alert (CreateCampaign.CreateCampaign (Page.state p))
  /\ Page.uploads p' = Page.uploads p.
Proof.
  intros Hrun Hquiet.
  assert (Hkept :
    CreateCampaign.message (Page.state p')
    = CreateCampaign.message (Page.state p)
    /\ CreateCampaign.messageType (Page.state p')
       = CreateCampaign.messageType (Page.state p)
    /\ Page.uploads p' = Page.uploads p).
  { revert p Hrun. induction events as [|ev events IH]; simpl in *;
      intros p Hrun.
    - injection Hrun as <-. repeat split.
    - apply andb_true_iff in Hquiet. destruct Hquiet as [Hev Hrest].
      destruct (Page.step host apiBaseUrl p ev) as [next|] eqn:Hstep;
        [|discriminate Hrun].
      destruct (IH Hrest next Hrun) as (Hm & Ht & Hu).
      destruct (step_keeps_outcome p next ev Hstep Hev) as (Hm' & Ht' & Hu').
      rewrite Hm, Ht, Hu. repeat split; assumption. }
  destruct Hkept as (Hm & Ht & Hu).
  split; [exact Hm|]. split; [exact Ht|]. split; [|exact Hu].
  unfold CreateCampaign.CreateCampaign. simpl. rewrite Hm, Ht. reflexivity.
Qed.

End Stays.

(** ** Sessions that show the properties at work *)

Lemma session_reaches_submitting :
  Page.reachable JS.v8 Sample.apiBaseUrl Sample.submitting.
Proof. exists Sample.session. reflexivity. Qed.

Lemma without_roster_reaches_stranded :
  Page.reachable JS.v8 Sample.apiBaseUrl Scenario.stranded.
Proof. exists Scenario.without_roster. reflexivity. Qed.

Lemma refused_reaches_after_refusal :
  Page.reachable JS.v8 Sample.apiBaseUrl Scenario.after_refusal.
Proof. exists Scenario.refused. reflexivity. Qed.

(** The upload on its way in the sample session names the loaded agent. *)
Lemma uploads_built_by_form_witness :
  Forall
    (Consistent.sent_by_form Sample.apiBaseUrl
       (map Agent.id (CreateCampaign.agents (Page.state Sample.submitting))))
    (Page.uploads Sample.submitting).
Proof.
  exact (proj2 (uploads_built_by_form JS.v8 Sample.apiBaseUrl
                  Sample.submitting session_reaches_submitting)).
Defined.

(** While the sample upload is in flight no alert shows; once it is
    refused the alert is there. *)
Lemma alert_follows_outcome_witness :
  CreateCampaign.alert
    (CreateCampaign.CreateCampaign (Page.state Sample.submitting)) = None
  /\ (CreateCampaign.alert
        (CreateCampaign.CreateCampaign (Page.state Scenario.after_refusal))
      = None
      <-> CreateCampaign.messageType (Page.state Scenario.after_refusal) = "").
Proof.
  split.
  - apply (alert_follows_outcome JS.v8 Sample.apiBaseUrl Sample.submitting
             session_reaches_submitting).
    reflexivity.
  - apply (alert_follows_outcome JS.v8 Sample.apiBaseUrl
             Scenario.after_refusal refused_reaches_after_refusal).
Defined.

(** With the roster refused, a click is not delivered. *)
Lemma no_roster_no_upload_witness :
  Page.step JS.v8 Sample.apiBaseUrl Scenario.stranded Page.Click = None.
Proof.
  apply (proj2 (no_roster_no_upload JS.v8 Sample.apiBaseUrl)
           Scenario.stranded without_roster_reaches_stranded eq_refl).
Defined.

(** After the roster was refused the error text stands for the control. *)
Lemma selector_follows_roster_witness :
  match
    CreateCampaign.agentSelect
      (CreateCampaign.CreateCampaign (Page.state Scenario.stranded))
  with
  | AgentSelect.Failed text =>
      Page.agents_pending Scenario.stranded = false
      /\ CreateCampaign.agents (Page.state Scenario.stranded) = []
      /\ exists e,
           CreateCampaign.agentError (Page.state Scenario.stranded) = Some e
           /\ e <> "" /\ text = " Error: " ++ e
  | _ => False
  end.
Proof.
  exact (selector_follows_roster JS.v8 Sample.apiBaseUrl Scenario.stranded
           without_roster_reaches_stranded).
Defined.


(** A validation error of two entries. *)
Lemma refusal_shows_objects_witness :
  CreateCampaign.message
    (CreateCampaign.submit JS.v8 Sample.apiBaseUrl Sample.filled
       (JS.Fulfilled Scenario.unprocessable))
  = "Campaign creation failed: [object Object],[object Object]".
Proof.
  apply (proj2 (refusal_shows_objects JS.v8 Sample.apiBaseUrl Sample.filled
                  Sample.leads_csv Scenario.unprocessable _
                  eq_refl ltac:(discriminate) eq_refl eq_refl)
           [[("msg", JS.JString "field required")];
            [("msg", JS.JString "field required")]]
           eq_refl).
  repeat constructor.
Defined.

(** The refusal of the sample upload stays on the page while the user
    picks another file. *)
Lemma outcome_stays_witness :
  exists p',
    Page.run JS.v8 Sample.apiBaseUrl Scenario.after_refusal
      [Page.FileChange [Sample.leads_csv]] = Some p'
    /\ CreateCampaign.message (Page.state p')
       = "Campaign creation failed: bad column".
Proof.
  eexists. split; [reflexivity|].
  apply (outcome_stays JS.v8 Sample.apiBaseUrl
           [Page.FileChange [Sample.leads_csv]] Scenario.after_refusal _
           eq_refl eq_refl).
Defined.

(** ** Picking a file while an upload is in flight *)

Section Meanwhile.
Context (host : JS.Host) (apiBaseUrl : string).


End Meanwhile.

